(** * The quota-and-cache gate of indices-viewer

    A shallow embedding of the rate limiters
    ([app/api/_lib/rateLimiter.ts], [app/api/_lib/rateLimiterKV.ts]) and of
    the two route handlers that run the gate protocol
    ([app/api/indices/route.ts], [app/api/indices-performance/route.ts]).

    Module-level [let] variables become fields of an explicit state record
    that every operation receives and returns; each [Date.now()] becomes an
    argument; the upstream [fetch] becomes an argument holding the response
    it resolves to.  Times are integer milliseconds since the epoch, counts
    are integers: both are [Z] (JS numbers are exact on that range).

    The shared-store limiter awaits the store between its reads and its
    writes and reads the clock on both sides of the first await:
    [Kv.decide] and [Kv.commit] are the two halves of a call, each clock
    reading a field of [Kv.readings]; [Kv.consumeRateLimit] is the call
    that runs alone while every clock shows one instant.  A handler that
    throws, be it in [fetch], in [res.json()] or in [NextResponse.json],
    has no reply. *)

From Stdlib Require Import ZArith Lia String Ascii List.
From stdpp Require Import base option gmap strings pretty.

Local Open Scope string_scope.
Local Open Scope Z_scope.

#[local] Set Warnings "-register-all".

(** ** ECMAScript built-ins used by the source *)

Module Js.

(** [String(n)] for an integral number. *)
Definition String_ (n : Z) : string := pretty n.

(** [Math.floor(x / 1000)] and [Math.ceil(x / 1000)] for integral [x]. *)
Definition floor_div (x d : Z) : Z := x / d.
Definition ceil_div (x d : Z) : Z := - ((- x) / d).

Definition msPerDay : Z := 86400000.

(** Day number of a time value, [Day(t) = floor(t / msPerDay)]. *)
Definition Day (t : Z) : Z := t / msPerDay.

(** Proleptic Gregorian date of a day number: (year, month 1..12, day). *)
Definition civil_from_days (days : Z) : Z * Z * Z :=
  let z := days + 719468 in
  let era := z / 146097 in
  let doe := z - era * 146097 in
  let yoe := (doe - doe / 1460 + doe / 36524 - doe / 146096) / 365 in
  let y := yoe + era * 400 in
  let doy := doe - (365 * yoe + yoe / 4 - yoe / 100) in
  let mp := (5 * doy + 2) / 153 in
  let d := doy - (153 * mp + 2) / 5 + 1 in
  let m := if mp <? 10 then mp + 3 else mp - 9 in
  (if m <=? 2 then y + 1 else y, m, d).

(** Day number of a proleptic Gregorian date. *)
Definition days_from_civil (y m d : Z) : Z :=
  let y := if m <=? 2 then y - 1 else y in
  let era := y / 400 in
  let yoe := y - era * 400 in
  let doy := (153 * (if 2 <? m then m - 3 else m + 9) + 2) / 5 + d - 1 in
  let doe := yoe * 365 + yoe / 4 - yoe / 100 + doy in
  era * 146097 + doe - 719468.

(** [new Date(t).getUTCFullYear()]. *)
Definition getUTCFullYear (t : Z) : Z := (civil_from_days (Day t)).1.1.

(** [new Date(t).getUTCMonth()], zero-based. *)
Definition getUTCMonth (t : Z) : Z := (civil_from_days (Day t)).1.2 - 1.

(** [Date.UTC(year, month, 1, 0, 0, 0, 0)]: the month index may be 12 and
    carries into the year; a year in 0..99 means 1900 + year. *)
Definition Date_UTC (year month : Z) : Z :=
  let yr := if (0 <=? year) && (year <=? 99) then 1900 + year else year in
  let ym := yr + month / 12 in
  let mn := month mod 12 in
  days_from_civil ym (mn + 1) 1 * msPerDay.

(** Payloads are JSON values ([res.json()]); numbers are kept as an
    integer mantissa and a decimal exponent. *)
Inductive json : Type :=
| JNull
| JBool (b : bool)
| JNum (mantissa exponent : Z)
| JStr (s : string)
| JArr (items : list json)
| JObj (fields : list (string * json)).

(** ToBoolean on a JSON value: [null], [false], [0] and the empty string
    are falsy; arrays and objects are truthy. *)
Definition truthy (v : json) : bool :=
  match v with
  | JNull => false
  | JBool b => b
  | JNum m _ => negb (m =? 0)
  | JStr s => negb (String.eqb s "")
  | JArr _ => true
  | JObj _ => true
  end.

(** The statuses on which the [Response] constructor refuses a body
    (the null body statuses). *)
Definition nullBodyStatus (st : Z) : bool :=
  (st =? 101) || (st =? 103) || (st =? 204) || (st =? 205) || (st =? 304).

(** Whether [new Response(body, { status })] with a body returns: the
    constructor throws a RangeError for a status outside 200..599 and a
    TypeError for a body on a null body status. *)
Definition statusTakesBody (st : Z) : bool :=
  (200 <=? st) && (st <=? 599) && negb (nullBodyStatus st).

End Js.

(** ** The in-memory limiter, [rateLimiter.ts] *)

Inductive reason : Type := minute | month.

Inductive RateLimitResult : Type :=
| Allowed (headers : gmap string string) (minuteRemaining monthRemaining : Z)
| Denied (headers : gmap string string) (why : reason)
         (retryAfterSeconds : option Z).

Definition allowed (r : RateLimitResult) : bool :=
  match r with Allowed _ _ _ => true | Denied _ _ _ => false end.

Definition headers (r : RateLimitResult) : gmap string string :=
  match r with Allowed h _ _ => h | Denied h _ _ => h end.

Definition MAX_PER_MINUTE : Z := 20.
Definition MAX_PER_MONTH : Z := 500.
Definition MINUTE_WINDOW_MS : Z := 60000.

Module Mem.

Record state : Type := mkState {
  minuteWindowStart : Z;
  minuteCount : Z;
  monthKey : string;
  monthCount : Z
}.

(** The module's initial bindings. *)
Definition init : state :=
  {| minuteWindowStart := 0; minuteCount := 0; monthKey := ""; monthCount := 0 |}.

Definition ensureMinuteWindow (now : Z) (s : state) : state :=
  if (minuteWindowStart s =? 0) || (MINUTE_WINDOW_MS <=? now - minuteWindowStart s)
  then {| minuteWindowStart := now; minuteCount := 0;
          monthKey := monthKey s; monthCount := monthCount s |}
  else s.

Definition getMonthKey (now : Z) : string :=
  Js.String_ (Js.getUTCFullYear now) +:+ "-" +:+ Js.String_ (Js.getUTCMonth now).

Definition ensureMonthWindow (now : Z) (s : state) : state :=
  let key := getMonthKey now in
  if negb (String.eqb (monthKey s) key)
  then {| minuteWindowStart := minuteWindowStart s; minuteCount := minuteCount s;
          monthKey := key; monthCount := 0 |}
  else s.

Definition nextMonthResetEpochSeconds (now : Z) : Z :=
  let nextMonth := Js.Date_UTC (Js.getUTCFullYear now) (Js.getUTCMonth now + 1) in
  Js.floor_div nextMonth 1000.

Definition minuteResetEpochSeconds (s : state) : Z :=
  Js.floor_div (minuteWindowStart s + MINUTE_WINDOW_MS) 1000.

Definition buildHeaders (now : Z) (s : state)
    (currentMinuteCount currentMonthCount : Z) : gmap string string :=
  let minuteRemaining := Z.max 0 (MAX_PER_MINUTE - currentMinuteCount) in
  let monthRemaining := Z.max 0 (MAX_PER_MONTH - currentMonthCount) in
  <["x-ratelimit-reset-month" := Js.String_ (nextMonthResetEpochSeconds now)]>
  (<["x-ratelimit-remaining-month" := Js.String_ monthRemaining]>
  (<["x-ratelimit-limit-month" := Js.String_ MAX_PER_MONTH]>
  (<["x-ratelimit-reset-minute" := Js.String_ (minuteResetEpochSeconds s)]>
  (<["x-ratelimit-remaining-minute" := Js.String_ minuteRemaining]>
  (<["x-ratelimit-limit-minute" := Js.String_ MAX_PER_MINUTE]> ∅))))).

(** The two [ensure...] calls that open [consumeRateLimit] and
    [rateLimitSnapshotHeaders]. *)
Definition resolve (now : Z) (s : state) : state :=
  ensureMonthWindow now (ensureMinuteWindow now s).

Definition consumeRateLimit (now : Z) (s : state) : RateLimitResult * state :=
  let s := ensureMinuteWindow now s in
  let s := ensureMonthWindow now s in
  if MAX_PER_MINUTE <=? minuteCount s then
    let headers := buildHeaders now s (minuteCount s) (monthCount s) in
    let retryAfterSeconds :=
      Z.max 1 (minuteResetEpochSeconds s - Js.floor_div now 1000) in
    (Denied headers minute (Some retryAfterSeconds), s)
  else if MAX_PER_MONTH <=? monthCount s then
    let headers := buildHeaders now s (minuteCount s) (monthCount s) in
    (Denied headers month None, s)
  else
    let s := {| minuteWindowStart := minuteWindowStart s;
                minuteCount := minuteCount s + 1;
                monthKey := monthKey s;
                monthCount := monthCount s + 1 |} in
    let headers := buildHeaders now s (minuteCount s) (monthCount s) in
    (Allowed headers
       (Z.max 0 (MAX_PER_MINUTE - minuteCount s))
       (Z.max 0 (MAX_PER_MONTH - monthCount s)), s).

Definition rateLimitSnapshotHeaders (now : Z) (s : state)
    : gmap string string * state :=
  let s := ensureMinuteWindow now s in
  let s := ensureMonthWindow now s in
  (buildHeaders now s (minuteCount s) (monthCount s), s).

End Mem.

(** ** The shared-store limiter, [rateLimiterKV.ts] *)

Module Kv.

(** The [@vercel/kv] client, as far as the limiter uses it: a string-keyed
    store whose records expire.  The limiter owns two families of keys,
    ["rate:minute"] holding [{count, windowStart}] and
    ["rate:month:<year>-<month>"] holding a bare count; the store keeps
    them apart.  Every record carries the instant (ms) at which it
    expires; each read and each write is given the instant at which the
    store serves it. *)
Record minuteData : Type := mkMinute { count : Z; windowStart : Z }.

Record store : Type := mkStore {
  minuteRecord : option (minuteData * Z);
  monthRecords : gmap string (Z * Z)
}.

Definition empty : store := {| minuteRecord := None; monthRecords := ∅ |}.

Definition live {A : Type} (now : Z) (r : A * Z) : option A :=
  if r.2 <=? now then None else Some r.1.

(** [kv.get(minuteKey)] *)
Definition get_minute (now : Z) (st : store) : option minuteData :=
  minuteRecord st ≫= live now.

(** [kv.get(monthKey)] *)
Definition get_month (now : Z) (monthKey : string) (st : store) : option Z :=
  monthRecords st !! monthKey ≫= live now.

(** [kv.set(minuteKey, v, { ex })]: expires [ex] seconds from now. *)
Definition set_minute (now : Z) (v : minuteData) (ex : Z) (st : store) : store :=
  {| minuteRecord := Some (v, now + ex * 1000); monthRecords := monthRecords st |}.

(** [kv.set(monthKey, n, { exat })]: expires at epoch second [exat]. *)
Definition set_month (monthKey : string) (n : Z) (exat : Z) (st : store) : store :=
  {| minuteRecord := minuteRecord st;
     monthRecords := <[monthKey := (n, exat * 1000)]> (monthRecords st) |}.

Definition getMonthKey (now : Z) : string :=
  Js.String_ (Js.getUTCFullYear now) +:+ "-" +:+ Js.String_ (Js.getUTCMonth now).

Definition mkHeaders (minuteRemaining minuteReset monthRemaining monthReset : Z)
    : gmap string string :=
  <["x-ratelimit-reset-month" := Js.String_ monthReset]>
  (<["x-ratelimit-remaining-month" := Js.String_ monthRemaining]>
  (<["x-ratelimit-limit-month" := Js.String_ MAX_PER_MONTH]>
  (<["x-ratelimit-reset-minute" := Js.String_ minuteReset]>
  (<["x-ratelimit-remaining-minute" := Js.String_ minuteRemaining]>
  (<["x-ratelimit-limit-minute" := Js.String_ MAX_PER_MINUTE]> ∅))))).

(** The clock readings of one [consumeRateLimit] call, in the order the
    source takes them.  The process reads its own clock four times
    ([Date.now()], the [new Date()] of [getMonthKey], and the two
    [new Date()] inside [Date.UTC], which come after the awaited [kv.get]);
    the store applies its expiry rules at the instants it serves the two
    [kv.get] and the [kv.set] with [ex: 60]. *)
Record readings : Type := mkReadings {
  nowAt : Z;
  keyAt : Z;
  minuteGetAt : Z;
  monthGetAt : Z;
  yearAt : Z;
  monthAt : Z;
  setAt : Z
}.

(** A call during which every clock shows [now]. *)
Definition allAt (now : Z) : readings := mkReadings now now now now now now now.

(** What the allow branch hands to the two [kv.set]. *)
Record writes : Type := mkWrites {
  minuteWrite : minuteData;
  monthWriteKey : string;
  monthWrite : Z;
  monthExat : Z
}.

(** [consumeRateLimit] up to its second [await]: the two reads, the
    decision, and the writes it is about to issue ([None] on a denial). *)
Definition decide (rd : readings) (st : store) : RateLimitResult * option writes :=
  let now := nowAt rd in
  let monthKey := "rate:month:" +:+ getMonthKey (keyAt rd) in
  let minuteData := get_minute (minuteGetAt rd) st in
  let monthCount := get_month (monthGetAt rd) monthKey st in
  let minuteWindowStart := default now (windowStart <$> minuteData) in
  let isMinuteExpired := MINUTE_WINDOW_MS <=? now - minuteWindowStart in
  let currentMinuteCount :=
    if isMinuteExpired then 0 else default 0 (count <$> minuteData) in
  let currentMonthCount := default 0 monthCount in
  let minuteRemaining := Z.max 0 (MAX_PER_MINUTE - currentMinuteCount) in
  let monthRemaining := Z.max 0 (MAX_PER_MONTH - currentMonthCount) in
  let minuteResetSeconds :=
    Js.ceil_div (minuteWindowStart + MINUTE_WINDOW_MS - now) 1000 in
  let nextMonth :=
    Js.Date_UTC (Js.getUTCFullYear (yearAt rd)) (Js.getUTCMonth (monthAt rd) + 1) in
  let monthResetSeconds := Js.floor_div nextMonth 1000 in
  let headers :=
    mkHeaders minuteRemaining
      (Js.floor_div (minuteWindowStart + MINUTE_WINDOW_MS) 1000)
      monthRemaining monthResetSeconds in
  if MAX_PER_MINUTE <=? currentMinuteCount then
    (Denied headers minute (Some (Z.max 1 minuteResetSeconds)), None)
  else if MAX_PER_MONTH <=? currentMonthCount then
    (Denied headers month None, None)
  else
    let newMinuteCount := currentMinuteCount + 1 in
    let newMonthCount := currentMonthCount + 1 in
    let newWindowStart := if isMinuteExpired then now else minuteWindowStart in
    (Allowed headers (MAX_PER_MINUTE - newMinuteCount)
       (MAX_PER_MONTH - newMonthCount),
     Some {| minuteWrite := {| count := newMinuteCount; windowStart := newWindowStart |};
             monthWriteKey := monthKey;
             monthWrite := newMonthCount;
             monthExat := monthResetSeconds |}).

(** The two [kv.set] of the allow branch, on the store as it is when they
    arrive: other calls may have written to it since this call's reads. *)
Definition commit (rd : readings) (w : option writes) (st : store) : store :=
  match w with
  | None => st
  | Some w =>
      set_month (monthWriteKey w) (monthWrite w) (monthExat w)
        (set_minute (setAt rd) (minuteWrite w) 60 st)
  end.

(** One call with nothing else touching the store between its reads and
    its writes. *)
Definition consumeRateLimitAt (rd : readings) (st : store) : RateLimitResult * store :=
  ((decide rd st).1, commit rd (decide rd st).2 st).

(** Two calls that overlap: both read the store before either writes. *)
Definition consumeOverlapping (rd1 rd2 : readings) (st : store)
    : RateLimitResult * RateLimitResult * store :=
  let d1 := decide rd1 st in
  let d2 := decide rd2 st in
  (d1.1, d2.1, commit rd2 d2.2 (commit rd1 d1.2 st)).

(** [consumeRateLimit] for a call that runs alone and during which every
    clock shows [now]. *)
Definition consumeRateLimit (now : Z) (st : store) : RateLimitResult * store :=
  consumeRateLimitAt (allAt now) st.

(** The bindings [minuteWindowStart], [currentMinuteCount] and
    [currentMonthCount] of a call, as functions of its readings and of
    what the store holds. *)
Definition windowStartAt (rd : readings) (st : store) : Z :=
  default (nowAt rd) (windowStart <$> get_minute (minuteGetAt rd) st).

Definition minuteCountAt (rd : readings) (st : store) : Z :=
  if MINUTE_WINDOW_MS <=? nowAt rd - windowStartAt rd st
  then 0 else default 0 (count <$> get_minute (minuteGetAt rd) st).

Definition monthCountAt (rd : readings) (st : store) : Z :=
  default 0 (get_month (monthGetAt rd) ("rate:month:" +:+ getMonthKey (keyAt rd)) st).

(** The bindings [minuteWindowStart], [currentMinuteCount] and
    [currentMonthCount] of [consumeRateLimit], as functions of what the
    store holds at [now]. *)
Definition currentWindowStart (now : Z) (st : store) : Z :=
  default now (windowStart <$> get_minute now st).

Definition currentMinuteCount (now : Z) (st : store) : Z :=
  if MINUTE_WINDOW_MS <=? now - currentWindowStart now st
  then 0 else default 0 (count <$> get_minute now st).

Definition currentMonthCount (now : Z) (st : store) : Z :=
  default 0 (get_month now ("rate:month:" +:+ getMonthKey now) st).

(** Only reads the store, so only the headers are returned. *)
Definition rateLimitSnapshotHeaders (now : Z) (st : store) : gmap string string :=
  let monthKey := "rate:month:" +:+ getMonthKey now in
  let minuteData := get_minute now st in
  let monthCount := get_month now monthKey st in
  let minuteWindowStart := default now (windowStart <$> minuteData) in
  let currentMinuteCount := default 0 (count <$> minuteData) in
  let currentMonthCount := default 0 monthCount in
  let nextMonth := Js.Date_UTC (Js.getUTCFullYear now) (Js.getUTCMonth now + 1) in
  mkHeaders (Z.max 0 (MAX_PER_MINUTE - currentMinuteCount))
    (Js.floor_div (minuteWindowStart + MINUTE_WINDOW_MS) 1000)
    (Z.max 0 (MAX_PER_MONTH - currentMonthCount))
    (Js.floor_div nextMonth 1000).

End Kv.

(** ** The shared-store limiter with its in-memory fallback

    The revision of the shared-store limiter that loads the client lazily.
    [initKV] decides once whether a client exists; that decision is the
    field [kvClient].  With a client the body is that of
    [Kv.consumeRateLimit]; without one, [consumeRateLimitFallback] runs on
    the module's own four counters. *)

Module KvFallback.

Record state : Type := mkState {
  kvClient : option Kv.store;
  fallbackMinuteStart : Z;
  fallbackMinuteCount : Z;
  fallbackMonthKey : string;
  fallbackMonthCount : Z
}.

Definition init (kv : option Kv.store) : state :=
  {| kvClient := kv; fallbackMinuteStart := 0; fallbackMinuteCount := 0;
     fallbackMonthKey := ""; fallbackMonthCount := 0 |}.

Definition with_kv (kv : Kv.store) (s : state) : state :=
  {| kvClient := Some kv;
     fallbackMinuteStart := fallbackMinuteStart s;
     fallbackMinuteCount := fallbackMinuteCount s;
     fallbackMonthKey := fallbackMonthKey s;
     fallbackMonthCount := fallbackMonthCount s |}.

Definition consumeRateLimitFallback (now : Z) (s : state) : RateLimitResult * state :=
  let currentMonthKey := Kv.getMonthKey now in
  let s :=
    if negb (String.eqb (fallbackMonthKey s) currentMonthKey)
    then {| kvClient := kvClient s;
            fallbackMinuteStart := fallbackMinuteStart s;
            fallbackMinuteCount := fallbackMinuteCount s;
            fallbackMonthKey := currentMonthKey; fallbackMonthCount := 0 |}
    else s in
  let s :=
    if (fallbackMinuteStart s =? 0)
       || (MINUTE_WINDOW_MS <=? now - fallbackMinuteStart s)
    then {| kvClient := kvClient s;
            fallbackMinuteStart := now; fallbackMinuteCount := 0;
            fallbackMonthKey := fallbackMonthKey s;
            fallbackMonthCount := fallbackMonthCount s |}
    else s in
  let minuteRemaining := Z.max 0 (MAX_PER_MINUTE - fallbackMinuteCount s) in
  let monthRemaining := Z.max 0 (MAX_PER_MONTH - fallbackMonthCount s) in
  let minuteResetSeconds :=
    Js.floor_div (fallbackMinuteStart s + MINUTE_WINDOW_MS) 1000 in
  let nextMonth := Js.Date_UTC (Js.getUTCFullYear now) (Js.getUTCMonth now + 1) in
  let monthResetSeconds := Js.floor_div nextMonth 1000 in
  let headers :=
    Kv.mkHeaders minuteRemaining minuteResetSeconds monthRemaining monthResetSeconds in
  if MAX_PER_MINUTE <=? fallbackMinuteCount s then
    let retryAfterSeconds :=
      Z.max 1 (minuteResetSeconds - Js.floor_div now 1000) in
    (Denied headers minute (Some retryAfterSeconds), s)
  else if MAX_PER_MONTH <=? fallbackMonthCount s then
    (Denied headers month None, s)
  else
    let s := {| kvClient := kvClient s;
                fallbackMinuteStart := fallbackMinuteStart s;
                fallbackMinuteCount := fallbackMinuteCount s + 1;
                fallbackMonthKey := fallbackMonthKey s;
                fallbackMonthCount := fallbackMonthCount s + 1 |} in
    (Allowed headers (MAX_PER_MINUTE - fallbackMinuteCount s)
       (MAX_PER_MONTH - fallbackMonthCount s), s).

Definition consumeRateLimit (now : Z) (s : state) : RateLimitResult * state :=
  match kvClient s with
  | None => consumeRateLimitFallback now s
  | Some kv =>
      let '(r, kv) := Kv.consumeRateLimit now kv in (r, with_kv kv s)
  end.

(** The snapshot of the same revision.  Without a client it reads the four
    counters as they stand, resolving nothing; with one it is the body of
    [Kv.rateLimitSnapshotHeaders].  Neither branch writes. *)
Definition rateLimitSnapshotHeaders (now : Z) (s : state) : gmap string string :=
  match kvClient s with
  | None =>
      let nextMonth := Js.Date_UTC (Js.getUTCFullYear now) (Js.getUTCMonth now + 1) in
      Kv.mkHeaders (Z.max 0 (MAX_PER_MINUTE - fallbackMinuteCount s))
        (Js.floor_div (fallbackMinuteStart s + MINUTE_WINDOW_MS) 1000)
        (Z.max 0 (MAX_PER_MONTH - fallbackMonthCount s))
        (Js.floor_div nextMonth 1000)
  | Some kv => Kv.rateLimitSnapshotHeaders now kv
  end.

End KvFallback.

(** ** What a route handler receives and returns *)

(** The JSON body of a reply: an upstream payload passed through, or the
    envelope [{ success: false, message }]. *)
Inductive body : Type :=
| Payload (data : Js.json)
| Failure (message : string).

Record response : Type := mkResponse {
  status : Z;
  content : body;
  rheaders : gmap string string
}.

(** What [await fetch(...)] does when it is reached: it rejects, or resolves
    to a response with a status and a body that [res.json()] can parse
    ([Some]) or not ([None]). *)
Inductive fetched : Type :=
| Rejected
| Resolved (status : Z) (parsed : option Js.json).

(** [res.ok] *)
Definition ok (status : Z) : bool := (200 <=? status) && (status <=? 299).

(** One run of a handler: the reply ([None] when the handler throws), the
    URLs it fetched, and the module state it leaves. *)
Record outcome (S : Type) : Type := mkOutcome {
  reply : option response;
  fetches : list string;
  after : S
}.
Arguments mkOutcome {S} _ _ _.
Arguments reply {S} _.
Arguments fetches {S} _.
Arguments after {S} _.

(** The three readings of the clock in one run: inside [consumeRateLimit],
    at the freshness test, and when the cache is stamped. *)
Record clock : Type := mkClock { at_quota : Z; at_lookup : Z; at_store : Z }.

Definition HOT_CACHE_TTL_MS : Z := 60000.

(** [NextResponse.json(body, { status, headers })], with the status 200
    when none is given.  It builds a [Response] with a body, so it throws
    where that constructor does; [None] is the throw. *)
Definition NextResponse_json (r : response) : option response :=
  if Js.statusTakesBody (status r) then Some r else None.

(** The [if (!quota.allowed) { ... }] block, the same text in both routes:
    what it hands to [NextResponse.json]. *)
Definition quotaDenied (h : gmap string string) (why : reason)
    (retryAfterSeconds : option Z) : response :=
  let headers :=
    match retryAfterSeconds with
    | Some r => if r =? 0 then h else <["retry-after" := Js.String_ r]> h
    | None => h
    end in
  let message :=
    match why with
    | minute =>
        "Minute rate limit reached (20 req/min). Please wait before refreshing again."
    | month => "Monthly quota reached (500 calls/mo)."
    end in
  {| status := 429; content := Failure message; rheaders := headers |}.

(** The [if (!res.ok) { ... }] block, the same text in both routes: what it
    hands to [NextResponse.json], the upstream's own status included. *)
Definition upstreamError (st : Z) (h : gmap string string) : response :=
  let message := "Upstream error: " +:+ Js.String_ st in
  {| status := st; content := Failure message; rheaders := h |}.

(** ** [app/api/indices/route.ts] *)

Module Indices.

Definition API_URL : string :=
  "https://token-metrics-api1.p.rapidapi.com/v3/indices".

Record cache : Type := mkCache { data : Js.json; ts : Z }.

(** The route's module state: its [CACHE] and the state of the limiter
    module it imports, [../_lib/rateLimiter]. *)
Record state : Type := mkState { limiter : Mem.state; CACHE : cache }.

Definition init : state :=
  {| limiter := Mem.init; CACHE := {| data := Js.JNull; ts := 0 |} |}.

(** The cache's [get]: the test of line 31 and the payload it lets
    through. *)
Definition get (now : Z) (c : cache) : option Js.json :=
  if Js.truthy (data c) && (now - ts c <? HOT_CACHE_TTL_MS)
  then Some (data c) else None.

(** The cache's [put]: the two assignments of lines 53-54. *)
Definition put (now : Z) (d : Js.json) (c : cache) : cache :=
  {| data := d; ts := now |}.

Definition GET (clk : clock) (upstream : fetched) (s : state) : outcome state :=
  let '(quota, lim) := Mem.consumeRateLimit (at_quota clk) (limiter s) in
  let s := {| limiter := lim; CACHE := CACHE s |} in
  match quota with
  | Denied h why retry => mkOutcome (NextResponse_json (quotaDenied h why retry)) [] s
  | Allowed h _ _ =>
      let now := at_lookup clk in
      match get now (CACHE s) with
      | Some d => mkOutcome (NextResponse_json (mkResponse 200 (Payload d) h)) [] s
      | None =>
        match upstream with
        | Rejected => mkOutcome None [API_URL] s
        | Resolved st parsed =>
            if negb (ok st)
            then mkOutcome (NextResponse_json (upstreamError st h)) [API_URL] s
            else
              match parsed with
              | None => mkOutcome None [API_URL] s
              | Some data =>
                  let s := {| limiter := limiter s;
                              CACHE := put (at_store clk) data (CACHE s) |} in
                  mkOutcome (NextResponse_json (mkResponse 200 (Payload data) h)) [API_URL] s
              end
        end
      end
  end.

End Indices.

(** ** [app/api/indices-performance/route.ts] *)

Module Performance.

(** The three query parameters, as [searchParams.get] returns them. *)
Record request : Type := mkRequest {
  id : option string;
  limit : option string;
  page : option string
}.

Record entry : Type := mkEntry { data : Js.json; ts : Z }.

(** The template literal of line 21. *)
Definition cacheKey (id limit page : string) : string :=
  "id:" +:+ id +:+ ":limit:" +:+ limit +:+ ":page:" +:+ page.

Definition upstreamUrl (id limit page : string) : string :=
  "https://token-metrics-api1.p.rapidapi.com/v3/indices-performance?limit="
    +:+ limit +:+ "&page=" +:+ page +:+ "&id=" +:+ id.

(** The test of line 42 on what [CACHE.get(key)] returned. *)
Definition fresh (now : Z) (cached : option entry) : option Js.json :=
  match cached with
  | Some e => if now - ts e <? HOT_CACHE_TTL_MS then Some (data e) else None
  | None => None
  end.

(** The cache's [get] and [put]: lines 22 and 42, and line 65. *)
Definition get (now : Z) (key : string) (m : gmap string entry) : option Js.json :=
  fresh now (m !! key).

Definition put (now : Z) (key : string) (d : Js.json) (m : gmap string entry)
    : gmap string entry :=
  <[key := {| data := d; ts := now |}]> m.

Section Gate.

(** The limiter the route imports as [../_lib/rateLimiterKV]: its state
    and its [consumeRateLimit]. *)
Context {L : Type} (consumeRateLimit : Z → L → RateLimitResult * L).

Record state : Type := mkState { limiter : L; CACHE : gmap string entry }.

Definition GET (clk : clock) (req : request) (upstream : fetched) (s : state)
    : outcome state :=
  match id req with
  | None => mkOutcome (NextResponse_json (mkResponse 400 (Failure "id required") ∅)) [] s
  | Some id =>
      if String.eqb id ""
      then mkOutcome (NextResponse_json (mkResponse 400 (Failure "id required") ∅)) [] s
      else
        let limit := default "50" (limit req) in
        let page := default "1" (page req) in
        let key := cacheKey id limit page in
        let cached := CACHE s !! key in
        let '(quota, lim) := consumeRateLimit (at_quota clk) (limiter s) in
        let s := {| limiter := lim; CACHE := CACHE s |} in
        match quota with
        | Denied h why retry => mkOutcome (NextResponse_json (quotaDenied h why retry)) [] s
        | Allowed h _ _ =>
            match fresh (at_lookup clk) cached with
            | Some d => mkOutcome (NextResponse_json (mkResponse 200 (Payload d) h)) [] s
            | None =>
                let url := upstreamUrl id limit page in
                match upstream with
                | Rejected => mkOutcome None [url] s
                | Resolved st parsed =>
                    if negb (ok st)
                    then mkOutcome (NextResponse_json (upstreamError st h)) [url] s
                    else
                      match parsed with
                      | None => mkOutcome None [url] s
                      | Some data =>
                          let s :=
                            {| limiter := limiter s;
                               CACHE := put (at_store clk) key data (CACHE s) |} in
                          mkOutcome (NextResponse_json (mkResponse 200 (Payload data) h)) [url] s
                      end
                end
            end
        end
  end.

End Gate.

Arguments state : clear implicits.
Arguments mkState {L} _ _.
Arguments limiter {L} _.
Arguments CACHE {L} _.

End Performance.

(** ** The deployed application: both routes side by side *)

Module App.

(** Each route module and each limiter module has its own bindings; the
    application's state is their product.  [L] is the state of whichever
    limiter [indices-performance] imports. *)
Record state (L : Type) : Type := mkState {
  indices : Indices.state;
  performance : Performance.state L
}.
Arguments mkState {L} _ _.
Arguments indices {L} _.
Arguments performance {L} _.

Inductive call : Type :=
| GetIndices (clk : clock) (upstream : fetched)
| GetPerformance (clk : clock) (req : Performance.request) (upstream : fetched).

Section Serve.

Context {L : Type} (consumeRateLimit : Z → L → RateLimitResult * L).

Definition serve (c : call) (a : state L) : outcome (state L) :=
  match c with
  | GetIndices clk up =>
      let o := Indices.GET clk up (indices a) in
      mkOutcome (reply o) (fetches o) (mkState (after o) (performance a))
  | GetPerformance clk req up =>
      let o := Performance.GET consumeRateLimit clk req up (performance a) in
      mkOutcome (reply o) (fetches o) (mkState (indices a) (after o))
  end.

(** Serve the calls in order; the replies and all the URLs fetched. *)
Fixpoint serveAll (cs : list call) (a : state L)
    : list (option response) * list string * state L :=
  match cs with
  | [] => ([], [], a)
  | c :: cs =>
      let o := serve c a in
      let '(rs, fs, a') := serveAll cs (after o) in
      (reply o :: rs, (fetches o ++ fs)%list, a')
  end.

End Serve.

End App.

(** Successive [consumeRateLimit] calls at the given clock readings. *)
Fixpoint consumeEach {S : Type} (consume : Z → S → RateLimitResult * S)
    (times : list Z) (s : S) : list RateLimitResult * S :=
  match times with
  | [] => ([], s)
  | t :: times =>
      let '(r, s) := consume t s in
      let '(rs, s) := consumeEach consume times s in
      (r :: rs, s)
  end.

(** ** Names for the effects of an allowed call *)

(** The in-memory state with both counters one higher. *)
Definition Mem_spent (r : Mem.state) : Mem.state :=
  {| Mem.minuteWindowStart := Mem.minuteWindowStart r;
     Mem.minuteCount := Mem.minuteCount r + 1;
     Mem.monthKey := Mem.monthKey r;
     Mem.monthCount := Mem.monthCount r + 1 |}.

(** The headers of the shared-store limiter, built once from the counts read. *)
Definition Kv_headers (now : Z) (st : Kv.store) : gmap string string :=
  Kv.mkHeaders (Z.max 0 (MAX_PER_MINUTE - Kv.currentMinuteCount now st))
    (Js.floor_div (Kv.currentWindowStart now st + MINUTE_WINDOW_MS) 1000)
    (Z.max 0 (MAX_PER_MONTH - Kv.currentMonthCount now st))
    (Js.floor_div (Js.Date_UTC (Js.getUTCFullYear now) (Js.getUTCMonth now + 1)) 1000).

(** The store after the two [kv.set] calls of the allow branch. *)
Definition Kv_spent (now : Z) (st : Kv.store) : Kv.store :=
  Kv.set_month ("rate:month:" +:+ Kv.getMonthKey now)
    (Kv.currentMonthCount now st + 1)
    (Js.floor_div (Js.Date_UTC (Js.getUTCFullYear now) (Js.getUTCMonth now + 1)) 1000)
    (Kv.set_minute now
       {| Kv.count := Kv.currentMinuteCount now st + 1;
          Kv.windowStart :=
            if MINUTE_WINDOW_MS <=? now - Kv.currentWindowStart now st
            then now else Kv.currentWindowStart now st |} 60 st).

(** A parameter value that the key's separator cannot be confused with. *)
Fixpoint colonFree (s : string) : bool :=
  match s with
  | EmptyString => true
  | String c s => negb (Ascii.eqb c ":") && colonFree s
  end.

(** ** Observations for the further properties *)

(** What a refused caller is told: the reason and the wait. *)
Definition verdict (r : RateLimitResult) : option (reason * option Z) :=
  match r with
  | Allowed _ _ _ => None
  | Denied _ why retry => Some (why, retry)
  end.

(** How many of the results let the request through. *)
Fixpoint allowedCount (rs : list RateLimitResult) : Z :=
  match rs with
  | [] => 0
  | r :: rs => (if allowed r then 1 else 0) + allowedCount rs
  end.

(** The four fallback counters of the lazily loading revision, read as a
    state of the in-memory limiter. *)
Definition fallbackCounters (s : KvFallback.state) : Mem.state :=
  {| Mem.minuteWindowStart := KvFallback.fallbackMinuteStart s;
     Mem.minuteCount := KvFallback.fallbackMinuteCount s;
     Mem.monthKey := KvFallback.fallbackMonthKey s;
     Mem.monthCount := KvFallback.fallbackMonthCount s |}.

(** The same state with its four fallback counters replaced. *)
Definition withCounters (s : KvFallback.state) (m : Mem.state) : KvFallback.state :=
  {| KvFallback.kvClient := KvFallback.kvClient s;
     KvFallback.fallbackMinuteStart := Mem.minuteWindowStart m;
     KvFallback.fallbackMinuteCount := Mem.minuteCount m;
     KvFallback.fallbackMonthKey := Mem.monthKey m;
     KvFallback.fallbackMonthCount := Mem.monthCount m |}.

(** The numbers an allowed result returns beside its headers. *)
Definition remainingFields (r : RateLimitResult) : option (Z * Z) :=
  match r with
  | Allowed _ mr mo => Some (mr, mo)
  | Denied _ _ _ => None
  end.

(** The minute window is open at [now] and the month is the stored one: no
    rollover is due. *)
Definition Mem_current (now : Z) (s : Mem.state) : bool :=
  negb (Mem.minuteWindowStart s =? 0)
  && (now - Mem.minuteWindowStart s <? MINUTE_WINDOW_MS)
  && String.eqb (Mem.monthKey s) (Mem.getMonthKey now).

(** ** Proof steps that recur *)

(** Opens [Kv.consumeRateLimit] down to the body of [Kv.decide]. *)
Ltac kv_unfold :=
  unfold Kv.consumeRateLimit, Kv.consumeRateLimitAt, Kv.decide, Kv.allAt;
  cbn [Kv.nowAt Kv.keyAt Kv.minuteGetAt Kv.monthGetAt Kv.yearAt Kv.monthAt Kv.setAt].

(** A lookup in a header map given as a chain of inserts. *)
Ltac header_lookup :=
  repeat (rewrite lookup_insert_ne by done);
  first [ rewrite lookup_insert_eq | rewrite lookup_empty ]; done.

(** Project the fields of an in-memory limiter state. *)
Ltac mem_fields :=
  cbn [Mem.minuteWindowStart Mem.minuteCount Mem.monthKey Mem.monthCount].

(** Project the fields of a fallback state and of its counters. *)
Ltac fallback_fields :=
  cbn [KvFallback.kvClient KvFallback.fallbackMinuteStart KvFallback.fallbackMinuteCount
       KvFallback.fallbackMonthKey KvFallback.fallbackMonthCount
       Mem.minuteWindowStart Mem.minuteCount Mem.monthKey Mem.monthCount
       fallbackCounters withCounters].

(** * Properties *)

(** ** The calendar model on known dates *)

Example civil_epoch : Js.civil_from_days (Js.Day 0) = (1970, 1, 1).
Proof. reflexivity. Qed.

Example civil_before_epoch : Js.civil_from_days (Js.Day (-1)) = (1969, 12, 31).
Proof. reflexivity. Qed.

Example civil_leap_days :
  Js.civil_from_days (Js.Day 951782400000) = (2000, 2, 29) ∧
  Js.civil_from_days (Js.Day 1709164800000) = (2024, 2, 29) ∧
  Js.civil_from_days (Js.Day 4107542400000) = (2100, 3, 1).
Proof. repeat split; reflexivity. Qed.

(** The last millisecond of December 2026 and the first of January 2027. *)
Example month_key_year_end :
  Mem.getMonthKey 1798761599999 = "2026-11" ∧
  Mem.nextMonthResetEpochSeconds 1798761599999 = 1798761600 ∧
  Mem.getMonthKey 1798761600000 = "2027-0".
Proof. repeat split; vm_compute; reflexivity. Qed.

(** ** Header lookups *)

Section Headers.

Lemma mkHeaders_remaining_minute a b c d :
  Kv.mkHeaders a b c d !! "x-ratelimit-remaining-minute" = Some (Js.String_ a).
Proof. unfold Kv.mkHeaders. header_lookup. Qed.

Lemma mkHeaders_reset_minute a b c d :
  Kv.mkHeaders a b c d !! "x-ratelimit-reset-minute" = Some (Js.String_ b).
Proof. unfold Kv.mkHeaders. header_lookup. Qed.

Lemma mkHeaders_remaining_month a b c d :
  Kv.mkHeaders a b c d !! "x-ratelimit-remaining-month" = Some (Js.String_ c).
Proof. unfold Kv.mkHeaders. header_lookup. Qed.

Lemma mkHeaders_retry_after a b c d :
  Kv.mkHeaders a b c d !! "retry-after" = None.
Proof. unfold Kv.mkHeaders. header_lookup. Qed.

(** The in-memory limiter fills the same six fields. *)
Lemma buildHeaders_mkHeaders now s cm cmo :
  Mem.buildHeaders now s cm cmo =
  Kv.mkHeaders (Z.max 0 (MAX_PER_MINUTE - cm)) (Mem.minuteResetEpochSeconds s)
    (Z.max 0 (MAX_PER_MONTH - cmo)) (Mem.nextMonthResetEpochSeconds now).
Proof. reflexivity. Qed.

End Headers.

(** ** The in-memory limiter, case by case *)

Section MemCases.

Variables (now : Z) (s : Mem.state).

Local Abbreviation r := (Mem.resolve now s).

Lemma Mem_consume_minute_denied :
  MAX_PER_MINUTE ≤ Mem.minuteCount r →
  Mem.consumeRateLimit now s =
  (Denied (Mem.buildHeaders now r (Mem.minuteCount r) (Mem.monthCount r)) minute
     (Some (Z.max 1 (Mem.minuteResetEpochSeconds r - Js.floor_div now 1000))), r).
Proof.
  intros H. unfold Mem.consumeRateLimit. fold (Mem.resolve now s).
  apply Z.leb_le in H. by rewrite H.
Qed.

Lemma Mem_consume_month_denied :
  Mem.minuteCount r < MAX_PER_MINUTE →
  MAX_PER_MONTH ≤ Mem.monthCount r →
  Mem.consumeRateLimit now s =
  (Denied (Mem.buildHeaders now r (Mem.minuteCount r) (Mem.monthCount r)) month None, r).
Proof.
  intros H1 H2. unfold Mem.consumeRateLimit. fold (Mem.resolve now s).
  apply Z.leb_gt in H1. apply Z.leb_le in H2. by rewrite H1, H2.
Qed.

Lemma Mem_consume_allowed :
  Mem.minuteCount r < MAX_PER_MINUTE →
  Mem.monthCount r < MAX_PER_MONTH →
  Mem.consumeRateLimit now s =
  (Allowed
     (Mem.buildHeaders now (Mem_spent r) (Mem.minuteCount r + 1) (Mem.monthCount r + 1))
     (Z.max 0 (MAX_PER_MINUTE - (Mem.minuteCount r + 1)))
     (Z.max 0 (MAX_PER_MONTH - (Mem.monthCount r + 1))), Mem_spent r).
Proof.
  intros H1 H2. unfold Mem.consumeRateLimit. fold (Mem.resolve now s).
  apply Z.leb_gt in H1. apply Z.leb_gt in H2. by rewrite H1, H2.
Qed.

(** The decision, read off the resolved counters. *)
Lemma Mem_allowed_iff :
  allowed (Mem.consumeRateLimit now s).1 = true ↔
  Mem.minuteCount r < MAX_PER_MINUTE ∧ Mem.monthCount r < MAX_PER_MONTH.
Proof.
  destruct (Z.lt_ge_cases (Mem.minuteCount r) MAX_PER_MINUTE) as [H1|H1].
  - destruct (Z.lt_ge_cases (Mem.monthCount r) MAX_PER_MONTH) as [H2|H2].
    + rewrite Mem_consume_allowed by done. simpl. tauto.
    + rewrite Mem_consume_month_denied by done. simpl. split; [done | lia].
  - rewrite Mem_consume_minute_denied by done. simpl. split; [done | lia].
Qed.

Lemma Mem_consume_state :
  (Mem.consumeRateLimit now s).2 =
  if allowed (Mem.consumeRateLimit now s).1 then Mem_spent r else r.
Proof.
  destruct (Z.lt_ge_cases (Mem.minuteCount r) MAX_PER_MINUTE) as [H1|H1].
  - destruct (Z.lt_ge_cases (Mem.monthCount r) MAX_PER_MONTH) as [H2|H2].
    + by rewrite Mem_consume_allowed.
    + by rewrite Mem_consume_month_denied.
  - by rewrite Mem_consume_minute_denied.
Qed.

End MemCases.

(** Rounding: the difference of two floors is the ceiling of the
    difference, or one less. *)
Lemma floor_diff_ceil (a b : Z) :
  Js.ceil_div (a - b) 1000 - 1 ≤ Js.floor_div a 1000 - Js.floor_div b 1000
  ≤ Js.ceil_div (a - b) 1000.
Proof.
  unfold Js.ceil_div, Js.floor_div.
  pose proof (Z.div_mod a 1000). pose proof (Z.mod_pos_bound a 1000).
  pose proof (Z.div_mod b 1000). pose proof (Z.mod_pos_bound b 1000).
  pose proof (Z.div_mod (- (a - b)) 1000). pose proof (Z.mod_pos_bound (- (a - b)) 1000).
  lia.
Qed.

(** ** The shared-store limiter, case by case *)

Section KvCases.

Variables (now : Z) (st : Kv.store).

Local Abbreviation ws := (Kv.currentWindowStart now st).
Local Abbreviation cm := (Kv.currentMinuteCount now st).
Local Abbreviation cmo := (Kv.currentMonthCount now st).

Lemma Kv_consume_minute_denied :
  MAX_PER_MINUTE ≤ cm →
  Kv.consumeRateLimit now st =
  (Denied (Kv_headers now st) minute
     (Some (Z.max 1 (Js.ceil_div (ws + MINUTE_WINDOW_MS - now) 1000))), st).
Proof.
  intros H. apply Z.leb_le in H. kv_unfold.
  fold (Kv.currentWindowStart now st). fold (Kv.currentMinuteCount now st).
  by rewrite H.
Qed.

Lemma Kv_consume_month_denied :
  cm < MAX_PER_MINUTE → MAX_PER_MONTH ≤ cmo →
  Kv.consumeRateLimit now st = (Denied (Kv_headers now st) month None, st).
Proof.
  intros H1 H2. apply Z.leb_gt in H1. apply Z.leb_le in H2.
  kv_unfold.
  fold (Kv.currentWindowStart now st). fold (Kv.currentMinuteCount now st).
  fold (Kv.currentMonthCount now st). by rewrite H1, H2.
Qed.

Lemma Kv_consume_allowed :
  cm < MAX_PER_MINUTE → cmo < MAX_PER_MONTH →
  Kv.consumeRateLimit now st =
  (Allowed (Kv_headers now st) (MAX_PER_MINUTE - (cm + 1))
     (MAX_PER_MONTH - (cmo + 1)), Kv_spent now st).
Proof.
  intros H1 H2. apply Z.leb_gt in H1. apply Z.leb_gt in H2.
  kv_unfold.
  fold (Kv.currentWindowStart now st). fold (Kv.currentMinuteCount now st).
  fold (Kv.currentMonthCount now st). by rewrite H1, H2.
Qed.

Lemma Kv_allowed_iff :
  allowed (Kv.consumeRateLimit now st).1 = true ↔
  cm < MAX_PER_MINUTE ∧ cmo < MAX_PER_MONTH.
Proof.
  destruct (Z.lt_ge_cases cm MAX_PER_MINUTE) as [H1|H1].
  - destruct (Z.lt_ge_cases cmo MAX_PER_MONTH) as [H2|H2].
    + rewrite Kv_consume_allowed by done. simpl. tauto.
    + rewrite Kv_consume_month_denied by done. simpl. split; [done | lia].
  - rewrite Kv_consume_minute_denied by done. simpl. split; [done | lia].
Qed.

Lemma Kv_consume_state :
  (Kv.consumeRateLimit now st).2 =
  if allowed (Kv.consumeRateLimit now st).1 then Kv_spent now st else st.
Proof.
  destruct (Z.lt_ge_cases cm MAX_PER_MINUTE) as [H1|H1].
  - destruct (Z.lt_ge_cases cmo MAX_PER_MONTH) as [H2|H2].
    + by rewrite Kv_consume_allowed.
    + by rewrite Kv_consume_month_denied.
  - by rewrite Kv_consume_minute_denied.
Qed.

End KvCases.

(** ** Denials *)

(** One in-memory window filled at 500 ms past a second: twenty calls. *)
Example Mem_window_filled :
  (consumeEach Mem.consumeRateLimit (replicate 20 1793583000500) Mem.init).2 =
  {| Mem.minuteWindowStart := 1793583000500; Mem.minuteCount := 20;
     Mem.monthKey := "2026-10"; Mem.monthCount := 20 |}.
Proof. vm_compute. reflexivity. Qed.

(** C2, as stated, fails on the in-memory limiter: with the window opened at
    ...000.500 s and filled, a call at ...001.000 s is denied for the minute
    with [retryAfterSeconds = 59], while
    [max(1, ceil((windowStart + windowDurationMs - now) / 1000))] is 60. *)
Lemma C2_counterexample :
  let s := (consumeEach Mem.consumeRateLimit (replicate 20 1793583000500) Mem.init).2 in
  let now := 1793583001000 in
  let r := Mem.resolve now s in
  MAX_PER_MINUTE ≤ Mem.minuteCount r ∧
  (∃ h, (Mem.consumeRateLimit now s).1 = Denied h minute (Some 59)) ∧
  Z.max 1 (Js.ceil_div (Mem.minuteWindowStart r + MINUTE_WINDOW_MS - now) 1000) = 60.
Proof.
  rewrite Mem_window_filled. cbv zeta.
  split; [vm_compute; discriminate |].
  split; [| vm_compute; reflexivity].
  eexists. rewrite Mem_consume_minute_denied by (vm_compute; discriminate).
  cbn [fst]. do 2 f_equal.
Qed.

(** C2, amended.  A call made when the resolved minute count has reached
    [MAX_PER_MINUTE] is denied with reason ["minute"], mutates nothing
    further, and [retryAfterSeconds >= 1].  The shared-store limiter reports
    [max(1, ceil((windowStart + windowDurationMs - now) / 1000))]; the
    in-memory limiter reports
    [max(1, floor((windowStart + windowDurationMs) / 1000) - floor(now / 1000))],
    which is that value or one second less. *)
Theorem C2_retry_after (now : Z) :
  (∀ s : Mem.state,
     let r := Mem.resolve now s in
     MAX_PER_MINUTE ≤ Mem.minuteCount r →
     ∃ h retry,
       Mem.consumeRateLimit now s = (Denied h minute (Some retry), r) ∧
       retry = Z.max 1 (Js.floor_div (Mem.minuteWindowStart r + MINUTE_WINDOW_MS) 1000
                        - Js.floor_div now 1000) ∧
       1 ≤ retry ∧
       Z.max 1 (Js.ceil_div (Mem.minuteWindowStart r + MINUTE_WINDOW_MS - now) 1000) - 1
         ≤ retry
         ≤ Z.max 1 (Js.ceil_div (Mem.minuteWindowStart r + MINUTE_WINDOW_MS - now) 1000)) ∧
  (∀ st : Kv.store,
     MAX_PER_MINUTE ≤ Kv.currentMinuteCount now st →
     ∃ h retry,
       Kv.consumeRateLimit now st = (Denied h minute (Some retry), st) ∧
       retry = Z.max 1 (Js.ceil_div
                          (Kv.currentWindowStart now st + MINUTE_WINDOW_MS - now) 1000) ∧
       1 ≤ retry).
Proof.
  split.
  - intros s r H. do 2 eexists. split; [by apply Mem_consume_minute_denied |].
    fold r. unfold Mem.minuteResetEpochSeconds.
    pose proof (floor_diff_ceil (Mem.minuteWindowStart r + MINUTE_WINDOW_MS) now).
    split; [done | lia].
  - intros st H. do 2 eexists. split; [by apply Kv_consume_minute_denied |].
    split; [done | lia].
Qed.

(** C2_retry_after at a filled window, half a second on, for each limiter. *)
Lemma C2_retry_after_witness :
  (∃ h, Mem.consumeRateLimit 1793583001000
          (consumeEach Mem.consumeRateLimit (replicate 20 1793583000500) Mem.init).2
        = (Denied h minute (Some 59),
           {| Mem.minuteWindowStart := 1793583000500; Mem.minuteCount := 20;
              Mem.monthKey := "2026-10"; Mem.monthCount := 20 |})) ∧
  (∃ h st, st = (consumeEach Kv.consumeRateLimit (replicate 20 1793583000500) Kv.empty).2 ∧
           Kv.consumeRateLimit 1793583001000 st = (Denied h minute (Some 60), st)).
Proof.
  split.
  - destruct (proj1 (C2_retry_after 1793583001000)
                (consumeEach Mem.consumeRateLimit (replicate 20 1793583000500) Mem.init).2)
      as (h & retry & Hc & Hr & _).
    + vm_compute. discriminate.
    + exists h. rewrite Hc, Hr. vm_compute. reflexivity.
  - destruct (proj2 (C2_retry_after 1793583001000)
                (consumeEach Kv.consumeRateLimit (replicate 20 1793583000500) Kv.empty).2)
      as (h & retry & Hc & Hr & _).
    + vm_compute. discriminate.
    + exists h. eexists. split; [reflexivity |]. rewrite Hc, Hr.
      f_equal.
Defined.

Lemma quotaDenied_month_no_retry (h : gmap string string) :
  h !! "retry-after" = None →
  status (quotaDenied h month None) = 429 ∧
  content (quotaDenied h month None) = Failure "Monthly quota reached (500 calls/mo)." ∧
  rheaders (quotaDenied h month None) !! "retry-after" = None.
Proof. intros H. by repeat split. Qed.

(** C8.  At [now], with both resolved counts at their caps the denial is
    reported for the minute; with only the month count at its cap the denial
    has reason ["month"] and no [retryAfterSeconds], and the 429 reply of the
    route has no [retry-after] header.  Both limiters, both routes. *)
Theorem C8_denial_priority (now : Z) :
  (∀ s : Mem.state,
     let r := Mem.resolve now s in
     MAX_PER_MONTH ≤ Mem.monthCount r →
     (MAX_PER_MINUTE ≤ Mem.minuteCount r →
      ∃ h retry, (Mem.consumeRateLimit now s).1 = Denied h minute (Some retry)) ∧
     (Mem.minuteCount r < MAX_PER_MINUTE →
      (∃ h, (Mem.consumeRateLimit now s).1 = Denied h month None) ∧
      ∀ clk up c, at_quota clk = now →
        ∃ resp, reply (Indices.GET clk up (Indices.mkState s c)) = Some resp ∧
                status resp = 429 ∧
                content resp = Failure "Monthly quota reached (500 calls/mo)." ∧
                rheaders resp !! "retry-after" = None)) ∧
  (∀ st : Kv.store,
     MAX_PER_MONTH ≤ Kv.currentMonthCount now st →
     (MAX_PER_MINUTE ≤ Kv.currentMinuteCount now st →
      ∃ h retry, (Kv.consumeRateLimit now st).1 = Denied h minute (Some retry)) ∧
     (Kv.currentMinuteCount now st < MAX_PER_MINUTE →
      (∃ h, (Kv.consumeRateLimit now st).1 = Denied h month None) ∧
      ∀ clk i l p up c, at_quota clk = now → i ≠ "" →
        ∃ resp, reply (Performance.GET Kv.consumeRateLimit clk
                         (Performance.mkRequest (Some i) l p) up
                         (Performance.mkState st c)) = Some resp ∧
                status resp = 429 ∧
                content resp = Failure "Monthly quota reached (500 calls/mo)." ∧
                rheaders resp !! "retry-after" = None)).
Proof.
  split.
  - intros s r Hmo. split.
    + intros Hmi. rewrite Mem_consume_minute_denied by done. cbn [fst]. eauto.
    + intros Hmi. split.
      * rewrite Mem_consume_month_denied by done. cbn [fst]. eauto.
      * intros clk up c Hq. unfold Indices.GET.
        cbn [Indices.limiter Indices.CACHE]. rewrite Hq.
        rewrite Mem_consume_month_denied by done. cbn [reply].
        eexists. split; [reflexivity |].
        apply quotaDenied_month_no_retry.
        rewrite buildHeaders_mkHeaders. apply mkHeaders_retry_after.
  - intros st Hmo. split.
    + intros Hmi. rewrite Kv_consume_minute_denied by done. cbn [fst]. eauto.
    + intros Hmi. split.
      * rewrite Kv_consume_month_denied by done. cbn [fst]. eauto.
      * intros clk i l p up c Hq Hi. unfold Performance.GET.
        cbn [Performance.id Performance.limiter Performance.CACHE].
        apply String.eqb_neq in Hi. rewrite Hi, Hq.
        rewrite Kv_consume_month_denied by done. cbn [reply].
        eexists. split; [reflexivity |].
        apply quotaDenied_month_no_retry. unfold Kv_headers.
        apply mkHeaders_retry_after.
Qed.

(** C8_denial_priority on the in-memory limiter: a state with the month
    spent, once with the minute window full and once with room in it. *)
Lemma C8_denial_priority_witness :
  (∃ h retry,
     (Mem.consumeRateLimit 1793583001000
        {| Mem.minuteWindowStart := 1793583000500; Mem.minuteCount := 20;
           Mem.monthKey := "2026-10"; Mem.monthCount := 500 |}).1
     = Denied h minute (Some retry)) ∧
  (∃ h,
     (Mem.consumeRateLimit 1793583001000
        {| Mem.minuteWindowStart := 1793583000500; Mem.minuteCount := 3;
           Mem.monthKey := "2026-10"; Mem.monthCount := 500 |}).1
     = Denied h month None).
Proof.
  split.
  - apply (proj1 (C8_denial_priority 1793583001000)
             {| Mem.minuteWindowStart := 1793583000500; Mem.minuteCount := 20;
                Mem.monthKey := "2026-10"; Mem.monthCount := 500 |});
      vm_compute; discriminate.
  - apply (proj1 (C8_denial_priority 1793583001000)
             {| Mem.minuteWindowStart := 1793583000500; Mem.minuteCount := 3;
                Mem.monthKey := "2026-10"; Mem.monthCount := 500 |});
      vm_compute; first [discriminate | reflexivity].
Defined.

(** ** The gate protocol *)

(** When neither the minute window nor the month rolls over at [now],
    resolving changes nothing. *)
Lemma Mem_resolve_current now s :
  Mem.minuteWindowStart s ≠ 0 →
  now - Mem.minuteWindowStart s < MINUTE_WINDOW_MS →
  Mem.monthKey s = Mem.getMonthKey now →
  Mem.resolve now s = s.
Proof.
  intros H0 Hw Hk. unfold Mem.resolve, Mem.ensureMinuteWindow.
  apply Z.eqb_neq in H0. apply Z.leb_gt in Hw. rewrite H0, Hw. cbn [orb].
  unfold Mem.ensureMonthWindow. by rewrite Hk, String.eqb_refl.
Qed.

(** Whatever the cache holds and whatever the upstream does, a run of either
    handler leaves the limiter exactly as its one [consumeRateLimit] call
    left it. *)
Lemma Indices_GET_limiter clk up s :
  Indices.limiter (after (Indices.GET clk up s)) =
  (Mem.consumeRateLimit (at_quota clk) (Indices.limiter s)).2.
Proof.
  unfold Indices.GET.
  destruct (Mem.consumeRateLimit (at_quota clk) (Indices.limiter s)) as [[h mr mo|h why retry] lim];
    cbn [snd]; [| reflexivity].
  cbn [Indices.CACHE]. destruct (Indices.get _ _); [reflexivity |].
  destruct up as [|st [d|]]; try reflexivity; destruct (negb (ok st)); reflexivity.
Qed.

Lemma Performance_GET_limiter {L} (consume : Z → L → RateLimitResult * L)
    clk i l p up (s : Performance.state L) :
  i ≠ "" →
  Performance.limiter
    (after (Performance.GET consume clk (Performance.mkRequest (Some i) l p) up s)) =
  (consume (at_quota clk) (Performance.limiter s)).2.
Proof.
  intros Hi. apply String.eqb_neq in Hi. unfold Performance.GET.
  cbn [Performance.id Performance.limit Performance.page]. rewrite Hi.
  destruct (consume (at_quota clk) (Performance.limiter s)) as [[h mr mo|h why retry] lim];
    cbn [snd]; [| reflexivity].
  cbn [Performance.CACHE]. destruct (Performance.fresh _ _); [reflexivity |].
  destruct up as [|st [d|]]; try reflexivity; destruct (negb (ok st)); reflexivity.
Qed.

(** A denied run stops there: the 429 reply, no fetch, the cache as it was. *)
Lemma Indices_GET_denied clk up s h why retry :
  (Mem.consumeRateLimit (at_quota clk) (Indices.limiter s)).1 = Denied h why retry →
  reply (Indices.GET clk up s) = Some (quotaDenied h why retry) ∧
  fetches (Indices.GET clk up s) = [] ∧
  Indices.CACHE (after (Indices.GET clk up s)) = Indices.CACHE s.
Proof.
  unfold Indices.GET.
  destruct (Mem.consumeRateLimit (at_quota clk) (Indices.limiter s)) as [q lim].
  cbn [fst]. intros ->. done.
Qed.

Lemma Performance_GET_denied {L} (consume : Z → L → RateLimitResult * L)
    clk i l p up (s : Performance.state L) h why retry :
  i ≠ "" →
  (consume (at_quota clk) (Performance.limiter s)).1 = Denied h why retry →
  let o := Performance.GET consume clk (Performance.mkRequest (Some i) l p) up s in
  reply o = Some (quotaDenied h why retry) ∧ fetches o = [] ∧
  Performance.CACHE (after o) = Performance.CACHE s.
Proof.
  intros Hi. apply String.eqb_neq in Hi. unfold Performance.GET.
  cbn [Performance.id Performance.limit Performance.page]. rewrite Hi.
  destruct (consume (at_quota clk) (Performance.limiter s)) as [q lim].
  cbn [fst]. intros ->. done.
Qed.

(** C3, as stated, fails on the in-memory limiter: a call that denies the
    request can still change a stored counter, because the windows are
    resolved before the decision.  With the month spent, a request arriving
    70 s after the window opened is denied for the month and leaves
    [minuteCount] at 0 where 15 was stored; with the minute window full, a
    request arriving in a new month is denied for the minute and leaves
    [monthCount] at 0 where 20 was stored. *)
Lemma C3_counterexample :
  let clk := mkClock 1793583070500 1793583070500 1793583070500 in
  let s1 := Indices.mkState
              {| Mem.minuteWindowStart := 1793583000500; Mem.minuteCount := 15;
                 Mem.monthKey := "2026-10"; Mem.monthCount := 500 |}
              (Indices.mkCache Js.JNull 0) in
  let s2 := Indices.mkState
              {| Mem.minuteWindowStart := 1793583070000; Mem.minuteCount := 20;
                 Mem.monthKey := "2026-09"; Mem.monthCount := 20 |}
              (Indices.mkCache Js.JNull 0) in
  (verdict (Mem.consumeRateLimit (at_quota clk) (Indices.limiter s1)).1 = Some (month, None) ∧
   Mem.minuteCount (Indices.limiter s1) = 15 ∧
   Mem.minuteCount (Indices.limiter (after (Indices.GET clk Rejected s1))) = 0) ∧
  (verdict (Mem.consumeRateLimit (at_quota clk) (Indices.limiter s2)).1
     = Some (minute, Some 60) ∧
   Mem.monthCount (Indices.limiter s2) = 20 ∧
   Mem.monthCount (Indices.limiter (after (Indices.GET clk Rejected s2))) = 0).
Proof. vm_compute. repeat split; reflexivity. Qed.

(** C3, amended, for the gate of the parameterless route on the in-memory
    limiter.  Counters are read as [consumeRateLimit] resolves them for the
    instant of the call (an expired minute window, or the count of a past
    month, stands at zero).  If the call allows the request, the run leaves
    each counter exactly one above its resolved value, whether the run then
    ends in a cache hit, an upstream success, an upstream failure or a
    throw: [up] and the cache are arbitrary.  If it denies the request, the
    run increments nothing and leaves the counters at their resolved values:
    as stored whenever no rollover is due, and reset where the window or the
    month had rolled over; it fetches nothing and does not touch the cache. *)
Theorem C3_quota_spent_once_resolved (clk : clock) (up : fetched) (s : Indices.state) :
  let now := at_quota clk in
  let q := (Mem.consumeRateLimit now (Indices.limiter s)).1 in
  let r := Mem.resolve now (Indices.limiter s) in
  let s' := after (Indices.GET clk up s) in
  (allowed q = true →
   Mem.minuteCount (Indices.limiter s') = Mem.minuteCount r + 1 ∧
   Mem.monthCount (Indices.limiter s') = Mem.monthCount r + 1 ∧
   Mem.minuteWindowStart (Indices.limiter s') = Mem.minuteWindowStart r ∧
   Mem.monthKey (Indices.limiter s') = Mem.monthKey r) ∧
  (allowed q = false →
   Indices.limiter s' = r ∧
   (Mem.minuteWindowStart (Indices.limiter s) ≠ 0 →
    now - Mem.minuteWindowStart (Indices.limiter s) < MINUTE_WINDOW_MS →
    Mem.monthKey (Indices.limiter s) = Mem.getMonthKey now →
    Indices.limiter s' = Indices.limiter s) ∧
   Indices.CACHE s' = Indices.CACHE s ∧
   fetches (Indices.GET clk up s) = []).
Proof.
  intros now q r s'. subst s'. rewrite Indices_GET_limiter. fold now.
  rewrite Mem_consume_state. fold q r. split; intros Hq; rewrite Hq.
  - done.
  - split; [done |]. split; [subst r; apply Mem_resolve_current |].
    destruct (Mem.consumeRateLimit now (Indices.limiter s)).1 as [|h why retry] eqn:E;
      [done |].
    by destruct (Indices_GET_denied clk up s h why retry E) as (_ & ? & ?).
Qed.

(** C3_quota_spent_once_resolved on the first request a new process serves,
    ending in an upstream failure, and on a request arriving at a full
    window. *)
Lemma C3_quota_spent_once_resolved_witness :
  let clk := mkClock 1793583000500 1793583000501 1793583000900 in
  let full := {| Mem.minuteWindowStart := 1793583000000; Mem.minuteCount := 20;
                 Mem.monthKey := "2026-10"; Mem.monthCount := 20 |} in
  (let s' := after (Indices.GET clk (Resolved 503 None) Indices.init) in
   Mem.minuteCount (Indices.limiter s') = 0 + 1 ∧
   Mem.monthCount (Indices.limiter s') = 0 + 1) ∧
  (let s := Indices.mkState full (Indices.mkCache Js.JNull 0) in
   let o := Indices.GET clk (Resolved 503 None) s in
   Indices.limiter (after o) = full ∧ fetches o = []).
Proof.
  intros clk full. split.
  - pose proof (proj1 (C3_quota_spent_once_resolved clk (Resolved 503 None) Indices.init))
      as Ha.
    assert (Hq : allowed (Mem.consumeRateLimit (at_quota clk)
                            (Indices.limiter Indices.init)).1 = true)
      by (vm_compute; reflexivity).
    split; [exact (proj1 (Ha Hq)) | exact (proj1 (proj2 (Ha Hq)))].
  - pose proof (proj2 (C3_quota_spent_once_resolved clk (Resolved 503 None)
                         (Indices.mkState full (Indices.mkCache Js.JNull 0)))) as Hd.
    assert (Hq : allowed (Mem.consumeRateLimit (at_quota clk) full).1 = false)
      by (vm_compute; reflexivity).
    assert (H0 : Mem.minuteWindowStart full ≠ 0) by discriminate.
    assert (Hw : at_quota clk - Mem.minuteWindowStart full < MINUTE_WINDOW_MS)
      by reflexivity.
    assert (Hk : Mem.monthKey full = Mem.getMonthKey (at_quota clk))
      by (vm_compute; reflexivity).
    split; [exact (proj1 (proj2 (Hd Hq)) H0 Hw Hk) | exact (proj2 (proj2 (proj2 (Hd Hq))))].
Defined.

Lemma NextResponse_json_upstreamError S h :
  NextResponse_json (upstreamError S h)
  = if Js.statusTakesBody S
    then Some {| status := S;
                 content := Failure ("Upstream error: " +:+ Js.String_ S);
                 rheaders := h |}
    else None.
Proof. reflexivity. Qed.

(** C6, as stated, fails at the upstream status 304: the handler passes it
    to [NextResponse.json] together with the message, and a response may
    not carry a body on 304, so the call throws and the handler has no reply
    of its own where the claim has a reply of status 304.  So in both
    routes. *)
Lemma C6_counterexample :
  let clk := mkClock 1793583000500 1793583000501 1793583000900 in
  let o := Indices.GET clk (Resolved 304 None) Indices.init in
  let s := Performance.mkState Kv.empty ∅ in
  let o' := Performance.GET Kv.consumeRateLimit clk
              (Performance.mkRequest (Some "7") None None) (Resolved 304 None) s in
  ok 304 = false ∧
  (allowed (Mem.consumeRateLimit (at_quota clk) (Indices.limiter Indices.init)).1 = true ∧
   Indices.get (at_lookup clk) (Indices.CACHE Indices.init) = None ∧
   reply o = None ∧ fetches o = [Indices.API_URL]) ∧
  (allowed (Kv.consumeRateLimit (at_quota clk) (Performance.limiter s)).1 = true ∧
   Performance.get (at_lookup clk) (Performance.cacheKey "7" "50" "1")
     (Performance.CACHE s) = None ∧
   reply o' = None ∧ fetches o' = [Performance.upstreamUrl "7" "50" "1"]).
Proof. vm_compute. repeat split; reflexivity. Qed.

(** The non-success statuses a reply may relay with a message. *)
Lemma statusTakesBody_not_ok (S : Z) :
  ok S = false →
  (Js.statusTakesBody S = true ↔ 300 ≤ S ≤ 599 ∧ S ≠ 304).
Proof.
  intros Hok. unfold ok in Hok. unfold Js.statusTakesBody, Js.nullBodyStatus.
  rewrite !andb_true_iff, negb_true_iff, !orb_false_iff, !Z.leb_le, !Z.eqb_neq.
  apply andb_false_iff in Hok. rewrite !Z.leb_gt in Hok. lia.
Qed.

(** C6, amended.  A request that [consumeRateLimit] allows, that misses the
    cache and whose upstream call resolves with a status [S] outside
    200..299 that a response with a body may have (by
    [statusTakesBody_not_ok]: 300..599 other than 304) is answered with
    status [S], the message ["Upstream error: <S>"] and the headers of the
    [consumeRateLimit] result; the upstream was called once, the cache is
    unchanged, and the quota spent stays spent.  Both routes; the keyed
    route with any limiter. *)
Theorem C6_upstream_failure_with_body (clk : clock) (S : Z) (parsed : option Js.json) :
  ok S = false →
  Js.statusTakesBody S = true →
  (∀ (s : Indices.state) h mr mo,
     (Mem.consumeRateLimit (at_quota clk) (Indices.limiter s)).1 = Allowed h mr mo →
     Indices.get (at_lookup clk) (Indices.CACHE s) = None →
     let o := Indices.GET clk (Resolved S parsed) s in
     reply o = Some {| status := S;
                       content := Failure ("Upstream error: " +:+ Js.String_ S);
                       rheaders := h |} ∧
     fetches o = [Indices.API_URL] ∧
     Indices.CACHE (after o) = Indices.CACHE s ∧
     Indices.limiter (after o)
       = (Mem.consumeRateLimit (at_quota clk) (Indices.limiter s)).2) ∧
  (∀ (L : Type) (consume : Z → L → RateLimitResult * L)
     (s : Performance.state L) (i : string) (l p : option string) h mr mo,
     i ≠ "" →
     (consume (at_quota clk) (Performance.limiter s)).1 = Allowed h mr mo →
     Performance.get (at_lookup clk)
       (Performance.cacheKey i (default "50" l) (default "1" p))
       (Performance.CACHE s) = None →
     let o := Performance.GET consume clk (Performance.mkRequest (Some i) l p)
                (Resolved S parsed) s in
     reply o = Some {| status := S;
                       content := Failure ("Upstream error: " +:+ Js.String_ S);
                       rheaders := h |} ∧
     fetches o = [Performance.upstreamUrl i (default "50" l) (default "1" p)] ∧
     Performance.CACHE (after o) = Performance.CACHE s ∧
     Performance.limiter (after o)
       = (consume (at_quota clk) (Performance.limiter s)).2).
Proof.
  intros Hok Hbody. split.
  - intros s h mr mo Hq Hmiss. unfold Indices.GET.
    destruct (Mem.consumeRateLimit (at_quota clk) (Indices.limiter s)) as [q lim].
    cbn [fst snd] in *. subst q.
    cbn [Indices.CACHE]. rewrite Hmiss, Hok.
    cbn [negb reply fetches after Indices.CACHE Indices.limiter].
    by rewrite NextResponse_json_upstreamError, Hbody.
  - intros L consume s i l p h mr mo Hi Hq Hmiss.
    apply String.eqb_neq in Hi. unfold Performance.GET.
    cbn [Performance.id Performance.limit Performance.page]. rewrite Hi.
    destruct (consume (at_quota clk) (Performance.limiter s)) as [q lim].
    cbn [fst snd] in *. subst q.
    cbn [Performance.CACHE]. unfold Performance.get in Hmiss.
    rewrite Hmiss, Hok.
    cbn [negb reply fetches after Performance.CACHE Performance.limiter].
    by rewrite NextResponse_json_upstreamError, Hbody.
Qed.

(** C6_upstream_failure_with_body on scenario C: a new process, upstream
    status 503. *)
Lemma C6_upstream_failure_with_body_witness :
  let clk := mkClock 1793583000500 1793583000501 1793583000900 in
  reply (Indices.GET clk (Resolved 503 None) Indices.init)
  = Some {| status := 503; content := Failure "Upstream error: 503";
            rheaders := Mem.buildHeaders 1793583000500
                          {| Mem.minuteWindowStart := 1793583000500;
                             Mem.minuteCount := 1;
                             Mem.monthKey := "2026-10"; Mem.monthCount := 1 |} 1 1 |} ∧
  reply (Performance.GET Kv.consumeRateLimit clk
           (Performance.mkRequest (Some "7") None None) (Resolved 503 None)
           (Performance.mkState Kv.empty ∅))
  = Some {| status := 503; content := Failure "Upstream error: 503";
            rheaders := Kv_headers 1793583000500 Kv.empty |}.
Proof.
  intros clk.
  pose proof (C6_upstream_failure_with_body clk 503 None eq_refl eq_refl) as (HI & HP).
  split.
  - refine (proj1 (HI Indices.init _ 19 499 _ eq_refl)).
    rewrite Mem_consume_allowed by (vm_compute; reflexivity). reflexivity.
  - assert (Hi : "7" ≠ "") by discriminate.
    refine (proj1 (HP _ Kv.consumeRateLimit (Performance.mkState Kv.empty ∅)
                     "7" None None _ 19 499 Hi _ eq_refl)).
    rewrite Kv_consume_allowed by (vm_compute; reflexivity). reflexivity.
Defined.

(** ** The response caches *)

Lemma Indices_get_Some now c d :
  Indices.get now c = Some d ↔
  d = Indices.data c ∧ Js.truthy d = true ∧ now - Indices.ts c < HOT_CACHE_TTL_MS.
Proof.
  unfold Indices.get.
  destruct (Js.truthy (Indices.data c)) eqn:Ht;
    destruct (Z.ltb_spec (now - Indices.ts c) HOT_CACHE_TTL_MS) as [Hl|Hl];
    cbn [andb]; split; try discriminate.
  - intros [= <-]. done.
  - intros (-> & _ & _). done.
  - intros (_ & _ & ?). lia.
  - intros (-> & ? & _). congruence.
  - intros (-> & ? & _). congruence.
Qed.

(** C5, as stated, fails on the singleton cache of the parameterless route:
    the upstream answers 200 with the JSON value [null], the route stores it
    with [ts = ...000.900 s]; a request looking the cache up 100 ms later, well
    within the 60,000 ms, does not get the payload back: it is a miss and the
    upstream is fetched again. *)
Lemma C5_counterexample :
  let clk1 := mkClock 1793583000500 1793583000501 1793583000900 in
  let clk2 := mkClock 1793583001000 1793583001000 1793583001400 in
  let s1 := after (Indices.GET clk1 (Resolved 200 (Some Js.JNull)) Indices.init) in
  Indices.CACHE s1 = Indices.put 1793583000900 Js.JNull (Indices.CACHE Indices.init) ∧
  at_lookup clk2 - 1793583000900 < 60000 ∧
  Indices.get (at_lookup clk2) (Indices.CACHE s1) = None ∧
  fetches (Indices.GET clk2 (Resolved 200 (Some Js.JNull)) s1) = [Indices.API_URL].
Proof. vm_compute. repeat split; reflexivity. Qed.

(** C5, amended.  In the keyed cache, for every key and payload, [get] at
    [now] after [put] at [storedAt] returns exactly that payload if
    [now - storedAt < 60000] and is a miss otherwise.  In the singleton
    cache the same holds for every truthy payload; a falsy payload is a miss
    at any time.  [get] returns a payload and nothing else: an entry past its
    TTL stays stored until a later [put], which overwrites it whatever it
    held and stamps it with its own time. *)
Theorem C5_get_after_put (now storedAt : Z) (payload : Js.json) :
  (∀ (key : string) (m : gmap string Performance.entry),
     Performance.get now key (Performance.put storedAt key payload m)
       = (if now - storedAt <? 60000 then Some payload else None) ∧
     Performance.put storedAt key payload m !! key
       = Some {| Performance.data := payload; Performance.ts := storedAt |} ∧
     ∀ d0 t0, Performance.put storedAt key payload (Performance.put t0 key d0 m)
              = Performance.put storedAt key payload m) ∧
  (∀ c : Indices.cache,
     Indices.get now (Indices.put storedAt payload c)
       = (if Js.truthy payload && (now - storedAt <? 60000) then Some payload else None) ∧
     Indices.put storedAt payload c
       = {| Indices.data := payload; Indices.ts := storedAt |}).
Proof.
  split.
  - intros key m. unfold Performance.get, Performance.put.
    rewrite lookup_insert_eq. cbn [Performance.fresh Performance.ts Performance.data].
    split; [done |]. split; [done |]. intros d0 t0. apply insert_insert_eq.
  - intros c. done.
Qed.

(** C10.  In the parameterless route a stored payload that is falsy ([null]
    is) is a miss whatever the age of the entry, and an allowed request then
    fetches the upstream; a hit is only ever a truthy payload within the
    TTL. *)
Theorem C10_falsy_payload_misses (clk : clock) (up : fetched) (s : Indices.state) :
  Js.truthy Js.JNull = false ∧
  (Js.truthy (Indices.data (Indices.CACHE s)) = false →
   Indices.get (at_lookup clk) (Indices.CACHE s) = None ∧
   (allowed (Mem.consumeRateLimit (at_quota clk) (Indices.limiter s)).1 = true →
    fetches (Indices.GET clk up s) = [Indices.API_URL])) ∧
  (∀ d, Indices.get (at_lookup clk) (Indices.CACHE s) = Some d →
        Js.truthy d = true ∧ d = Indices.data (Indices.CACHE s) ∧
        at_lookup clk - Indices.ts (Indices.CACHE s) < HOT_CACHE_TTL_MS).
Proof.
  split; [done |]. split.
  - intros Hf.
    assert (Hmiss : Indices.get (at_lookup clk) (Indices.CACHE s) = None)
      by (unfold Indices.get; by rewrite Hf).
    split; [done |]. intros Hq. unfold Indices.GET.
    destruct (Mem.consumeRateLimit (at_quota clk) (Indices.limiter s)) as [[h mr mo|] lim];
      [| done].
    cbn [Indices.CACHE]. rewrite Hmiss.
    destruct up as [|st [d|]]; try reflexivity; destruct (negb (ok st)); reflexivity.
  - intros d Hd. apply Indices_get_Some in Hd. tauto.
Qed.

(** C10_falsy_payload_misses on a cache holding [null] stamped 100 ms
    before the lookup. *)
Lemma C10_falsy_payload_misses_witness :
  let clk := mkClock 1793583001000 1793583001000 1793583001400 in
  let s := Indices.mkState Mem.init (Indices.mkCache Js.JNull 1793583000900) in
  Indices.get (at_lookup clk) (Indices.CACHE s) = None ∧
  fetches (Indices.GET clk (Resolved 200 (Some Js.JNull)) s) = [Indices.API_URL].
Proof.
  intros clk s.
  pose proof (proj1 (proj2 (C10_falsy_payload_misses clk (Resolved 200 (Some Js.JNull)) s))
                eq_refl) as [Hm Hf].
  split; [exact Hm |]. apply Hf. vm_compute. reflexivity.
Defined.

(** ** The keyed cache's key *)

(** A colon-free prefix ends at the first colon. *)
Lemma append_colon_inj (a a' r r' : string) :
  colonFree a = true → colonFree a' = true →
  a +:+ ":" +:+ r = a' +:+ ":" +:+ r' → a = a' ∧ r = r'.
Proof.
  revert a'. induction a as [|c a IH]; intros [|c' a'] Ha Ha' E; cbn in *.
  - by injection E.
  - injection E as <- _. done.
  - injection E as -> _. done.
  - injection E as <- E.
    apply andb_prop in Ha as [_ Ha]. apply andb_prop in Ha' as [_ Ha'].
    destruct (IH a' Ha Ha' E) as [-> ->]. done.
Qed.

(** C7, as stated, fails: two requests with different (id, limit, page)
    whose keys are the same string, so that the second is served the
    payload cached for the first. *)
Lemma C7_counterexample :
  ("a:limit:b", "c", "1") ≠ ("a", "b:limit:c", "1") ∧
  Performance.cacheKey "a:limit:b" "c" "1" = Performance.cacheKey "a" "b:limit:c" "1" ∧
  Performance.get 1793583001000 (Performance.cacheKey "a" "b:limit:c" "1")
    (Performance.put 1793583000900 (Performance.cacheKey "a:limit:b" "c" "1")
       (Js.JStr "payload of a:limit:b") ∅)
  = Some (Js.JStr "payload of a:limit:b").
Proof. split; [discriminate |]. split; vm_compute; reflexivity. Qed.

(** C7, amended.  The key is the concatenation
    [id:<id>:limit:<limit>:page:<page>].  On requests whose [id] and [limit]
    values contain no colon the mapping is injective, and a payload cached
    under one such triple is neither observed nor overwritten through
    another. *)
Theorem C7_cache_key_injective (id limit page id' limit' page' : string) :
  colonFree id = true → colonFree limit = true →
  colonFree id' = true → colonFree limit' = true →
  Performance.cacheKey id limit page
    = "id:" +:+ id +:+ ":limit:" +:+ limit +:+ ":page:" +:+ page ∧
  (Performance.cacheKey id limit page = Performance.cacheKey id' limit' page' →
   (id, limit, page) = (id', limit', page')) ∧
  ((id, limit, page) ≠ (id', limit', page') →
   ∀ (m : gmap string Performance.entry) now t d,
     Performance.get now (Performance.cacheKey id' limit' page')
       (Performance.put t (Performance.cacheKey id limit page) d m)
     = Performance.get now (Performance.cacheKey id' limit' page') m ∧
     Performance.put t (Performance.cacheKey id limit page) d m
       !! Performance.cacheKey id' limit' page'
     = m !! Performance.cacheKey id' limit' page').
Proof.
  intros Hi Hl Hi' Hl'.
  assert (Hinj : Performance.cacheKey id limit page = Performance.cacheKey id' limit' page' →
                 (id, limit, page) = (id', limit', page')).
  { unfold Performance.cacheKey. cbn. intros [= E].
    apply (append_colon_inj id id') in E as [-> E]; [| done..].
    cbn in E. injection E as E.
    apply (append_colon_inj limit limit') in E as [-> E]; [| done..].
    cbn in E. by injection E as ->. }
  split; [done |]. split; [done |].
  intros Hne m now t d.
  assert (Hk : Performance.cacheKey id limit page ≠ Performance.cacheKey id' limit' page')
    by (intros E; by apply Hne, Hinj).
  unfold Performance.get, Performance.put. by rewrite lookup_insert_ne.
Qed.

(** C7_cache_key_injective on two pages of one index. *)
Lemma C7_cache_key_injective_witness :
  Performance.cacheKey "7" "50" "1" = "id:7:limit:50:page:1" ∧
  Performance.cacheKey "7" "50" "1" ≠ Performance.cacheKey "7" "50" "2".
Proof.
  destruct (C7_cache_key_injective "7" "50" "1" "7" "50" "2" eq_refl eq_refl eq_refl eq_refl)
    as (Hk & Hinj & _).
  split; [exact Hk |]. intros E. apply Hinj in E. discriminate E.
Defined.

(** ** The snapshot *)

Lemma Mem_ensureMinuteWindow_idem now s :
  Mem.ensureMinuteWindow now (Mem.ensureMinuteWindow now s) = Mem.ensureMinuteWindow now s.
Proof.
  unfold Mem.ensureMinuteWindow at 2 3.
  destruct ((Mem.minuteWindowStart s =? 0)
            || (MINUTE_WINDOW_MS <=? now - Mem.minuteWindowStart s)) eqn:E.
  - unfold Mem.ensureMinuteWindow. mem_fields.
    replace (now - now) with 0 by lia. by destruct (now =? 0).
  - unfold Mem.ensureMinuteWindow. by rewrite E.
Qed.

Lemma Mem_ensureMonthWindow_idem now s :
  Mem.ensureMonthWindow now (Mem.ensureMonthWindow now s) = Mem.ensureMonthWindow now s.
Proof.
  unfold Mem.ensureMonthWindow at 2 3.
  destruct (negb (String.eqb (Mem.monthKey s) (Mem.getMonthKey now))) eqn:E.
  - unfold Mem.ensureMonthWindow. mem_fields. by rewrite String.eqb_refl.
  - unfold Mem.ensureMonthWindow. by rewrite E.
Qed.

Lemma Mem_ensure_comm now s :
  Mem.ensureMinuteWindow now (Mem.ensureMonthWindow now s)
  = Mem.ensureMonthWindow now (Mem.ensureMinuteWindow now s).
Proof.
  unfold Mem.ensureMinuteWindow, Mem.ensureMonthWindow.
  destruct ((Mem.minuteWindowStart s =? 0)
            || (MINUTE_WINDOW_MS <=? now - Mem.minuteWindowStart s)) eqn:E1;
    destruct (negb (String.eqb (Mem.monthKey s) (Mem.getMonthKey now))) eqn:E2;
    mem_fields; rewrite ?E1, ?E2; reflexivity.
Qed.

(** Resolving twice at one clock reading is resolving once. *)
Lemma Mem_resolve_idem now s : Mem.resolve now (Mem.resolve now s) = Mem.resolve now s.
Proof.
  unfold Mem.resolve.
  by rewrite Mem_ensure_comm, Mem_ensureMinuteWindow_idem, Mem_ensureMonthWindow_idem.
Qed.

Lemma Mem_consume_resolve now s :
  Mem.consumeRateLimit now (Mem.resolve now s) = Mem.consumeRateLimit now s.
Proof.
  unfold Mem.consumeRateLimit.
  change (Mem.ensureMonthWindow now (Mem.ensureMinuteWindow now (Mem.resolve now s)))
    with (Mem.resolve now (Mem.resolve now s)).
  change (Mem.ensureMonthWindow now (Mem.ensureMinuteWindow now s))
    with (Mem.resolve now s).
  by rewrite Mem_resolve_idem.
Qed.

(** C9, as stated, fails on the in-memory limiter.  Five requests are
    counted in a window opened at ...000.5 s; a snapshot taken 69.5 s later
    replaces the stored window, and a [consumeRateLimit] 10 s after that
    returns another result (its window, hence [x-ratelimit-reset-minute],
    dates from the snapshot) than it returns without the snapshot. *)
Lemma C9_counterexample :
  let s := (consumeEach Mem.consumeRateLimit (replicate 5 1793583000500) Mem.init).2 in
  let s' := (Mem.rateLimitSnapshotHeaders 1793583070000 s).2 in
  (Mem.minuteWindowStart s, Mem.minuteCount s) = (1793583000500, 5) ∧
  (Mem.minuteWindowStart s', Mem.minuteCount s') = (1793583070000, 0) ∧
  headers (Mem.consumeRateLimit 1793583080000 s').1 !! "x-ratelimit-reset-minute"
    = Some "1793583130" ∧
  headers (Mem.consumeRateLimit 1793583080000 s).1 !! "x-ratelimit-reset-minute"
    = Some "1793583140" ∧
  (Mem.consumeRateLimit 1793583080000 s').1 ≠ (Mem.consumeRateLimit 1793583080000 s).1.
Proof.
  intros s s'.
  assert (H1 : headers (Mem.consumeRateLimit 1793583080000 s').1
                 !! "x-ratelimit-reset-minute" = Some "1793583130")
    by (vm_compute; reflexivity).
  assert (H2 : headers (Mem.consumeRateLimit 1793583080000 s).1
                 !! "x-ratelimit-reset-minute" = Some "1793583140")
    by (vm_compute; reflexivity).
  split; [vm_compute; reflexivity |]. split; [vm_compute; reflexivity |].
  split; [exact H1 |]. split; [exact H2 |].
  intros E. rewrite E, H2 in H1. discriminate H1.
Qed.

(** C9, amended.  The in-memory snapshot spends no quota and increments
    nothing, but it stores the windows as it resolved them: the state it
    leaves is the one [consumeRateLimit] starts from at that instant, with an
    expired minute window replaced by a new one of count zero and a past
    month's count replaced by zero.  A counter is left as it was or at zero;
    when no rollover is due the stored state is untouched; and a
    [consumeRateLimit] at the same clock reading returns the same result and
    the same state after the snapshot as without it. *)
Theorem C9_snapshot_resolves (now : Z) (s : Mem.state) :
  let s' := (Mem.rateLimitSnapshotHeaders now s).2 in
  s' = Mem.resolve now s ∧
  (Mem.minuteCount s' = Mem.minuteCount s ∨ Mem.minuteCount s' = 0) ∧
  (Mem.monthCount s' = Mem.monthCount s ∨ Mem.monthCount s' = 0) ∧
  (Mem.minuteWindowStart s ≠ 0 →
   now - Mem.minuteWindowStart s < MINUTE_WINDOW_MS →
   Mem.monthKey s = Mem.getMonthKey now →
   s' = s) ∧
  Mem.consumeRateLimit now s' = Mem.consumeRateLimit now s.
Proof.
  cbv zeta. unfold Mem.rateLimitSnapshotHeaders. cbn [snd].
  change (Mem.ensureMonthWindow now (Mem.ensureMinuteWindow now s))
    with (Mem.resolve now s).
  split; [done |]. split; [| split; [| split]].
  - unfold Mem.resolve, Mem.ensureMonthWindow, Mem.ensureMinuteWindow.
    destruct (_ || _); destruct (negb _); cbn; auto.
  - unfold Mem.resolve, Mem.ensureMonthWindow, Mem.ensureMinuteWindow.
    destruct (_ || _); destruct (negb _); cbn; auto.
  - apply Mem_resolve_current.
  - apply Mem_consume_resolve.
Qed.

(** C9_snapshot_resolves on a window five requests into its minute. *)
Lemma C9_snapshot_resolves_witness :
  let s := {| Mem.minuteWindowStart := 1793583000500; Mem.minuteCount := 5;
              Mem.monthKey := "2026-10"; Mem.monthCount := 5 |} in
  (Mem.rateLimitSnapshotHeaders 1793583030000 s).2 = s.
Proof.
  intros s.
  apply (proj1 (proj2 (proj2 (proj2 (C9_snapshot_resolves 1793583030000 s))))).
  - discriminate.
  - reflexivity.
  - vm_compute. reflexivity.
Defined.

(** ** One minute window, call by call *)

Lemma consumeEach_cons {S : Type} (consume : Z → S → RateLimitResult * S) t ts s :
  consumeEach consume (t :: ts) s =
  ((consume t s).1 :: (consumeEach consume ts (consume t s).2).1,
   (consumeEach consume ts (consume t s).2).2).
Proof.
  simpl. destruct (consume t s) as [r s1]. simpl.
  destruct (consumeEach consume ts s1). reflexivity.
Qed.

(** Inside an open window only the month can roll over. *)
Lemma Mem_resolve_in_window now s :
  Mem.minuteWindowStart s ≠ 0 →
  now - Mem.minuteWindowStart s < MINUTE_WINDOW_MS →
  Mem.minuteWindowStart (Mem.resolve now s) = Mem.minuteWindowStart s ∧
  Mem.minuteCount (Mem.resolve now s) = Mem.minuteCount s ∧
  (Mem.monthCount (Mem.resolve now s) = Mem.monthCount s ∨
   Mem.monthCount (Mem.resolve now s) = 0).
Proof.
  intros H0 Hw. unfold Mem.resolve, Mem.ensureMinuteWindow.
  apply Z.eqb_neq in H0. apply Z.leb_gt in Hw. rewrite H0, Hw. cbn [orb].
  unfold Mem.ensureMonthWindow. destruct (negb _); mem_fields; auto.
Qed.

Lemma Mem_allowed_remaining now s :
  let r := Mem.resolve now s in
  0 ≤ Mem.minuteCount r < MAX_PER_MINUTE →
  Mem.monthCount r < MAX_PER_MONTH →
  allowed (Mem.consumeRateLimit now s).1 = true ∧
  headers (Mem.consumeRateLimit now s).1 !! "x-ratelimit-remaining-minute"
    = Some (Js.String_ (MAX_PER_MINUTE - (Mem.minuteCount r + 1))) ∧
  (Mem.consumeRateLimit now s).2 = Mem_spent r.
Proof.
  intros r [H0 H1] H2. rewrite Mem_consume_allowed by done. fold r.
  cbn [fst snd allowed headers]. split; [done |]. split; [| done].
  rewrite buildHeaders_mkHeaders, mkHeaders_remaining_minute.
  do 2 f_equal. lia.
Qed.

(** Calls that all fall inside the open window, with room left under both
    caps, are all allowed; each reports the count after its own increment. *)
Lemma Mem_run_in_window (times : list Z) :
  ∀ s : Mem.state,
    Mem.minuteWindowStart s ≠ 0 →
    (∀ t, t ∈ times → t - Mem.minuteWindowStart s < MINUTE_WINDOW_MS) →
    0 ≤ Mem.minuteCount s →
    Mem.minuteCount s + Z.of_nat (length times) ≤ MAX_PER_MINUTE →
    0 ≤ Mem.monthCount s →
    Mem.monthCount s + Z.of_nat (length times) ≤ MAX_PER_MONTH →
    ∀ (i : nat) (r : RateLimitResult),
      (consumeEach Mem.consumeRateLimit times s).1 !! i = Some r →
      allowed r = true ∧
      headers r !! "x-ratelimit-remaining-minute"
        = Some (Js.String_ (MAX_PER_MINUTE - (Mem.minuteCount s + Z.of_nat i + 1))).
Proof.
  induction times as [|t ts IH]; intros s H0 Hw Hc Hcap Hm Hmcap i r Hi.
  - done.
  - rewrite consumeEach_cons in Hi. cbn [fst] in Hi.
    cbn [length] in Hcap, Hmcap.
    destruct (Mem_resolve_in_window t s H0 (Hw t ltac:(left))) as (Ews & Ec & Em).
    destruct (Mem_allowed_remaining t s) as (Ha & Hh & Hs); [lia | lia |].
    destruct i as [|i]; cbn in Hi.
    + injection Hi as <-. split; [done |]. rewrite Hh, Ec. do 2 f_equal. lia.
    + rewrite Hs in Hi.
      assert (Hw' : ∀ t', t' ∈ ts →
                t' - Mem.minuteWindowStart (Mem_spent (Mem.resolve t s)) < MINUTE_WINDOW_MS).
      { unfold Mem_spent. mem_fields. rewrite Ews. intros t' Ht'. apply Hw. by right. }
      assert (H0' : Mem.minuteWindowStart (Mem_spent (Mem.resolve t s)) ≠ 0)
        by (unfold Mem_spent; mem_fields; by rewrite Ews).
      destruct (IH (Mem_spent (Mem.resolve t s)) H0' Hw') with (i := i) (r := r)
        as [Hr1 Hr2]; try exact Hi; try (unfold Mem_spent; mem_fields; lia).
      split; [done |]. rewrite Hr2. unfold Mem_spent. mem_fields.
      rewrite Ec. do 2 f_equal. lia.
Qed.

(** The in-memory limiter does what C1 says: from the module's initial
    state, twenty calls of which none is later than 60 s after the first
    are all allowed, with [x-ratelimit-remaining-minute] going 19, 18, ...,
    0.  (The code reads a window start of 0 as "no window", hence [t1 ≠ 0].) *)
Lemma Mem_first_window (t1 : Z) (rest : list Z) :
  t1 ≠ 0 →
  length rest = 19%nat →
  (∀ t, t ∈ rest → t - t1 < MINUTE_WINDOW_MS) →
  ∀ (i : nat) (r : RateLimitResult),
    (consumeEach Mem.consumeRateLimit (t1 :: rest) Mem.init).1 !! i = Some r →
    allowed r = true ∧
    headers r !! "x-ratelimit-remaining-minute" = Some (Js.String_ (19 - Z.of_nat i)).
Proof.
  intros H1 Hlen Hw i r Hi. rewrite consumeEach_cons in Hi. cbn [fst] in Hi.
  assert (Hr : Mem.minuteWindowStart (Mem.resolve t1 Mem.init) = t1 ∧
               Mem.minuteCount (Mem.resolve t1 Mem.init) = 0 ∧
               Mem.monthCount (Mem.resolve t1 Mem.init) = 0).
  { unfold Mem.resolve, Mem.ensureMinuteWindow, Mem.ensureMonthWindow.
    cbn [Mem.init orb Z.eqb]. mem_fields. by destruct (negb _). }
  destruct Hr as (Ews & Ec & Em).
  destruct (Mem_allowed_remaining t1 Mem.init) as (Ha & Hh & Hs);
    [rewrite Ec; done | rewrite Em; done |].
  destruct i as [|i]; cbn in Hi.
  - injection Hi as <-. split; [done |]. rewrite Hh, Ec. done.
  - rewrite Hs in Hi.
    assert (Hw' : ∀ t', t' ∈ rest →
              t' - Mem.minuteWindowStart (Mem_spent (Mem.resolve t1 Mem.init))
              < MINUTE_WINDOW_MS)
      by (unfold Mem_spent; mem_fields; by rewrite Ews).
    assert (H0' : Mem.minuteWindowStart (Mem_spent (Mem.resolve t1 Mem.init)) ≠ 0)
      by (unfold Mem_spent; mem_fields; by rewrite Ews).
    destruct (Mem_run_in_window rest (Mem_spent (Mem.resolve t1 Mem.init)) H0' Hw')
      with (i := i) (r := r) as [Hr1 Hr2];
      try exact Hi;
      try (unfold Mem_spent; mem_fields; rewrite ?Ec, ?Em, ?Hlen; done).
    split; [done |]. rewrite Hr2. unfold Mem_spent. mem_fields. rewrite Ec.
    do 2 f_equal. unfold MAX_PER_MINUTE. lia.
Qed.

Lemma Kv_empty_counts now :
  Kv.currentWindowStart now Kv.empty = now ∧
  Kv.currentMinuteCount now Kv.empty = 0 ∧
  Kv.currentMonthCount now Kv.empty = 0.
Proof.
  unfold Kv.currentMinuteCount, Kv.currentWindowStart, Kv.currentMonthCount,
    Kv.get_minute, Kv.get_month.
  cbn [Kv.empty Kv.minuteRecord Kv.monthRecords mbind option_bind fmap option_fmap
         option_map default].
  rewrite lookup_empty. replace (now - now) with 0 by lia. done.
Qed.

(** C1 on the shared-store limiter.  The headers are built from the counts
    read, before the increment: on an empty store the first call, at any
    time, is allowed and returns [minuteRemaining = 19] next to the header
    [x-ratelimit-remaining-minute: 20]; over twenty calls in one window the
    header goes 20, 19, ..., 1 while [minuteRemaining] goes 19, 18, ..., 0. *)
Theorem C1_shared_store_headers_lag :
  (∀ now : Z,
     ∃ h st, Kv.consumeRateLimit now Kv.empty = (Allowed h 19 499, st) ∧
             h !! "x-ratelimit-remaining-minute" = Some "20") ∧
  (let rs := (consumeEach Kv.consumeRateLimit (replicate 20 1793583000500) Kv.empty).1 in
   forallb allowed rs = true ∧
   (λ r, headers r !! "x-ratelimit-remaining-minute") <$> rs
     = Some <$> ["20"; "19"; "18"; "17"; "16"; "15"; "14"; "13"; "12"; "11";
                 "10"; "9"; "8"; "7"; "6"; "5"; "4"; "3"; "2"; "1"] ∧
   (λ r, match r with Allowed _ m _ => Some m | Denied _ _ _ => None end) <$> rs
     = Some <$> [19; 18; 17; 16; 15; 14; 13; 12; 11; 10; 9; 8; 7; 6; 5; 4; 3; 2; 1; 0]).
Proof.
  split.
  - intros now. destruct (Kv_empty_counts now) as (Ews & Ec & Em).
    do 2 eexists. split.
    + rewrite Kv_consume_allowed by (rewrite ?Ec, ?Em; done).
      rewrite Ec, Em. reflexivity.
    + unfold Kv_headers. rewrite mkHeaders_remaining_minute, Ec. reflexivity.
  - vm_compute. repeat split; reflexivity.
Qed.

(** The same twenty calls on the in-memory limiter: header and field agree. *)
Example Mem_twenty_calls :
  let rs := (consumeEach Mem.consumeRateLimit (replicate 20 1793583000500) Mem.init).1 in
  forallb allowed rs = true ∧
  (λ r, headers r !! "x-ratelimit-remaining-minute") <$> rs
    = Some <$> ["19"; "18"; "17"; "16"; "15"; "14"; "13"; "12"; "11"; "10";
                "9"; "8"; "7"; "6"; "5"; "4"; "3"; "2"; "1"; "0"].
Proof. vm_compute. split; reflexivity. Qed.

(** ** Two routes, two limiters *)

(** A run of one route leaves the other route's module state alone, so the
    other route answers as if the run had not happened. *)
Lemma App_routes_independent {L : Type} (consume : Z → L → RateLimitResult * L)
    (a : App.state L) clk up clk' req up' :
  App.performance (after (App.serve consume (App.GetIndices clk up) a))
    = App.performance a ∧
  App.indices (after (App.serve consume (App.GetPerformance clk' req up') a))
    = App.indices a ∧
  reply (App.serve consume (App.GetPerformance clk' req up')
           (after (App.serve consume (App.GetIndices clk up) a)))
    = reply (App.serve consume (App.GetPerformance clk' req up') a) ∧
  reply (App.serve consume (App.GetIndices clk up)
           (after (App.serve consume (App.GetPerformance clk' req up') a)))
    = reply (App.serve consume (App.GetIndices clk up) a).
Proof. done. Qed.

(** C4 on the code.  Within one second of a new process, twenty requests to
    [/api/indices] and twenty to [/api/indices-performance] reach the
    upstream, forty fetches against a cap of twenty; the first performance
    request after the twenty indices requests still reports the full minute
    quota.  So with the shared store, and so with the in-memory fallback of
    the lazily loading revision. *)
Theorem C4_quota_not_shared :
  let clk := mkClock 1793583000500 1793583000500 1793583000500 in
  let req := Performance.mkRequest (Some "7") None None in
  let calls := (replicate 20 (App.GetIndices clk (Resolved 503 None))
                ++ replicate 20 (App.GetPerformance clk req (Resolved 503 None)))%list in
  let remaining (o : option response) :=
    o ≫= λ resp, rheaders resp !! "x-ratelimit-remaining-minute" in
  (let a0 := App.mkState Indices.init (Performance.mkState Kv.empty ∅) in
   let '(replies, fetched, a) := App.serveAll Kv.consumeRateLimit calls a0 in
   length fetched = 40%nat ∧
   remaining (replies !!! 19%nat) = Some "0" ∧
   remaining (replies !!! 20%nat) = Some "20" ∧
   (status <$> reply (App.serve Kv.consumeRateLimit
                        (App.GetIndices clk (Resolved 503 None)) a)) = Some 429 ∧
   (status <$> reply (App.serve Kv.consumeRateLimit
                        (App.GetPerformance clk req (Resolved 503 None)) a)) = Some 429) ∧
  (let a0 := App.mkState Indices.init (Performance.mkState (KvFallback.init None) ∅) in
   let '(replies, fetched, a) := App.serveAll KvFallback.consumeRateLimit calls a0 in
   length fetched = 40%nat ∧
   remaining (replies !!! 19%nat) = Some "0" ∧
   remaining (replies !!! 20%nat) = Some "20").
Proof. vm_compute. repeat split; reflexivity. Qed.

(** ** The scenarios of the specification, run *)

(** Scenario A: twenty calls within a second are allowed, the twenty-first
    is denied for the minute with a retry between 1 and 60 seconds. *)
Example scenario_A :
  let '(rs, s) := consumeEach Mem.consumeRateLimit (replicate 20 1793583000500) Mem.init in
  forallb allowed rs = true ∧
  ∃ h retry, (Mem.consumeRateLimit 1793583000900 s).1 = Denied h minute (Some retry) ∧
             1 ≤ retry ≤ 60.
Proof.
  pose proof Mem_window_filled as E.
  destruct (consumeEach Mem.consumeRateLimit (replicate 20 1793583000500) Mem.init)
    as [rs s] eqn:Erun.
  cbn [snd] in E. subst s. split.
  - apply (f_equal fst) in Erun. cbn [fst] in Erun. subst rs.
    exact (proj1 Mem_twenty_calls).
  - rewrite Mem_consume_minute_denied by (vm_compute; discriminate).
    do 2 eexists. split; [reflexivity |]. vm_compute. split; discriminate.
Qed.

(** Scenario B: on an empty cache the first request fetches the upstream and
    fills the cache; the same request within 60 s fetches nothing, is
    answered from the cache, and still spends one unit of quota. *)
Example scenario_B :
  let clk1 := mkClock 1793583000500 1793583000501 1793583000900 in
  let clk2 := mkClock 1793583030000 1793583030001 1793583030400 in
  let d := Js.JObj [("success", Js.JBool true)] in
  let o1 := Indices.GET clk1 (Resolved 200 (Some d)) Indices.init in
  let o2 := Indices.GET clk2 (Resolved 200 (Some d)) (after o1) in
  fetches o1 = [Indices.API_URL] ∧
  Indices.CACHE (after o1) = Indices.mkCache d 1793583000900 ∧
  fetches o2 = [] ∧
  content <$> reply o2 = Some (Payload d) ∧
  Mem.minuteCount (Indices.limiter (after o1)) = 1 ∧
  Mem.minuteCount (Indices.limiter (after o2)) = 2 ∧
  Mem.monthCount (Indices.limiter (after o2)) = 2.
Proof. vm_compute. repeat split; reflexivity. Qed.

(** Scenario D: the month is spent, the minute is not. *)
Example scenario_D :
  let s := {| Mem.minuteWindowStart := 1793583000500; Mem.minuteCount := 3;
              Mem.monthKey := "2026-10"; Mem.monthCount := 500 |} in
  let o := Indices.GET (mkClock 1793583001000 1793583001000 1793583001000)
             (Resolved 200 (Some Js.JNull)) (Indices.mkState s (Indices.mkCache Js.JNull 0)) in
  status <$> reply o = Some 429 ∧
  (reply o ≫= λ resp, rheaders resp !! "retry-after") = None ∧
  Indices.limiter (after o) = s.
Proof. vm_compute. repeat split; reflexivity. Qed.

(** * Further properties of the limiters and the routes *)

(** ** The in-memory limiter keeps its counters under the caps *)

Lemma Mem_resolve_counts now s :
  (Mem.minuteCount (Mem.resolve now s) = Mem.minuteCount s ∨
   Mem.minuteCount (Mem.resolve now s) = 0) ∧
  (Mem.monthCount (Mem.resolve now s) = Mem.monthCount s ∨
   Mem.monthCount (Mem.resolve now s) = 0).
Proof.
  unfold Mem.resolve, Mem.ensureMonthWindow, Mem.ensureMinuteWindow.
  destruct (_ || _); destruct (negb _); mem_fields; auto.
Qed.

Lemma Mem_consume_caps now s :
  0 ≤ Mem.minuteCount s ≤ MAX_PER_MINUTE →
  0 ≤ Mem.monthCount s ≤ MAX_PER_MONTH →
  0 ≤ Mem.minuteCount (Mem.consumeRateLimit now s).2 ≤ MAX_PER_MINUTE ∧
  0 ≤ Mem.monthCount (Mem.consumeRateLimit now s).2 ≤ MAX_PER_MONTH.
Proof.
  intros Hmi Hmo. rewrite Mem_consume_state.
  destruct (Mem_resolve_counts now s) as [Hc Hm].
  destruct (allowed (Mem.consumeRateLimit now s).1) eqn:Ha.
  - apply Mem_allowed_iff in Ha as [H1 H2].
    unfold Mem_spent, MAX_PER_MINUTE, MAX_PER_MONTH in *. mem_fields. lia.
  - unfold MAX_PER_MINUTE, MAX_PER_MONTH in *. lia.
Qed.

(** X1.  Whatever the clock readings, a run of [consumeRateLimit] calls on
    the in-memory limiter that starts with both counters between zero and
    their caps ends with both counters between zero and their caps; so does
    a snapshot.  In particular every state reached from the module's initial
    bindings has [0 <= minuteCount <= 20] and [0 <= monthCount <= 500]. *)
Theorem X1_Mem_counters_within_caps (times : list Z) (s : Mem.state) :
  0 ≤ Mem.minuteCount s ≤ MAX_PER_MINUTE →
  0 ≤ Mem.monthCount s ≤ MAX_PER_MONTH →
  let s' := (consumeEach Mem.consumeRateLimit times s).2 in
  (0 ≤ Mem.minuteCount s' ≤ MAX_PER_MINUTE ∧ 0 ≤ Mem.monthCount s' ≤ MAX_PER_MONTH) ∧
  ∀ now, let s'' := (Mem.rateLimitSnapshotHeaders now s').2 in
         0 ≤ Mem.minuteCount s'' ≤ MAX_PER_MINUTE ∧
         0 ≤ Mem.monthCount s'' ≤ MAX_PER_MONTH.
Proof.
  revert s. induction times as [|t ts IH]; intros s Hmi Hmo.
  - cbn [consumeEach snd]. split; [done |]. intros now.
    unfold Mem.rateLimitSnapshotHeaders. cbn [snd].
    change (Mem.ensureMonthWindow now (Mem.ensureMinuteWindow now s))
      with (Mem.resolve now s).
    destruct (Mem_resolve_counts now s) as [Hc Hm].
    unfold MAX_PER_MINUTE, MAX_PER_MONTH in *. lia.
  - rewrite consumeEach_cons. cbn [snd].
    destruct (Mem_consume_caps t s Hmi Hmo) as [H1 H2]. by apply IH.
Qed.

(** X1_Mem_counters_within_caps from the initial bindings, over a run that
    fills a window, is denied, and goes on in the next window. *)
Lemma X1_Mem_counters_within_caps_witness :
  let times := (replicate 25 1793583000500 ++ [1793583070000])%list in
  let s' := (consumeEach Mem.consumeRateLimit times Mem.init).2 in
  0 ≤ Mem.minuteCount s' ≤ MAX_PER_MINUTE ∧ 0 ≤ Mem.monthCount s' ≤ MAX_PER_MONTH.
Proof.
  intros times s'.
  refine (proj1 (X1_Mem_counters_within_caps times Mem.init _ _)); vm_compute;
    split; discriminate.
Defined.

(** ** What one minute window lets through *)

Lemma allowedCount_nonneg rs : 0 ≤ allowedCount rs.
Proof. induction rs as [|r rs IH]; cbn [allowedCount]; [done |]. destruct (allowed r); lia. Qed.

(** X2.  While the in-memory window stays open (every call is less than
    60,000 ms after the stored window start), the calls let through number
    at most what the window has left, [max(0, 20 - minuteCount)], however
    many calls are made and whatever the month counter allows. *)
Theorem X2_Mem_window_lets_through_at_most_cap (times : list Z) (s : Mem.state) :
  Mem.minuteWindowStart s ≠ 0 →
  (∀ t, t ∈ times → t - Mem.minuteWindowStart s < MINUTE_WINDOW_MS) →
  allowedCount (consumeEach Mem.consumeRateLimit times s).1
    ≤ Z.max 0 (MAX_PER_MINUTE - Mem.minuteCount s).
Proof.
  revert s. induction times as [|t ts IH]; intros s H0 Hw.
  - cbn [consumeEach fst allowedCount]. lia.
  - rewrite consumeEach_cons. cbn [fst allowedCount].
    destruct (Mem_resolve_in_window t s H0 (Hw t ltac:(left))) as (Ews & Ec & _).
    rewrite Mem_consume_state.
    assert (Hw' : ∀ t', t' ∈ ts → t' - Mem.minuteWindowStart s < MINUTE_WINDOW_MS)
      by (intros t' Ht'; apply Hw; by right).
    destruct (allowed (Mem.consumeRateLimit t s).1) eqn:Ha.
    + apply Mem_allowed_iff in Ha as [H1 _].
      assert (Ews' : Mem.minuteWindowStart (Mem_spent (Mem.resolve t s))
                     = Mem.minuteWindowStart s) by done.
      assert (Ec' : Mem.minuteCount (Mem_spent (Mem.resolve t s))
                    = Mem.minuteCount s + 1) by (unfold Mem_spent; mem_fields; lia).
      specialize (IH (Mem_spent (Mem.resolve t s))). rewrite Ews', Ec' in IH.
      specialize (IH H0 Hw'). rewrite Ec in H1. lia.
    + specialize (IH (Mem.resolve t s)). rewrite Ews, Ec in IH.
      specialize (IH H0 Hw'). lia.
Qed.

(** X2_Mem_window_lets_through_at_most_cap on thirty calls in the second
    after a window was opened with five requests counted. *)
Lemma X2_Mem_window_lets_through_at_most_cap_witness :
  allowedCount
    (consumeEach Mem.consumeRateLimit (replicate 30 1793583001000)
       {| Mem.minuteWindowStart := 1793583000500; Mem.minuteCount := 5;
          Mem.monthKey := "2026-10"; Mem.monthCount := 5 |}).1
  ≤ Z.max 0 (MAX_PER_MINUTE - 5).
Proof.
  apply (X2_Mem_window_lets_through_at_most_cap (replicate 30 1793583001000)
           {| Mem.minuteWindowStart := 1793583000500; Mem.minuteCount := 5;
              Mem.monthKey := "2026-10"; Mem.monthCount := 5 |}).
  - discriminate.
  - intros t Ht. apply elem_of_replicate in Ht as [-> _]. reflexivity.
Defined.

(** X3.  A call that finds the in-memory minute window expired (or never
    opened) opens a new one at its own clock reading: if the month has room
    it is allowed whatever the old minute count was, the state it leaves has
    [minuteWindowStart = now] and [minuteCount = 1], and the header
    [x-ratelimit-remaining-minute] is 19. *)
Theorem X3_Mem_expired_window_restarts (now : Z) (s : Mem.state) :
  Mem.minuteWindowStart s = 0 ∨ MINUTE_WINDOW_MS ≤ now - Mem.minuteWindowStart s →
  Mem.monthCount (Mem.resolve now s) < MAX_PER_MONTH →
  let '(r, s') := Mem.consumeRateLimit now s in
  allowed r = true ∧
  headers r !! "x-ratelimit-remaining-minute" = Some "19" ∧
  Mem.minuteWindowStart s' = now ∧ Mem.minuteCount s' = 1.
Proof.
  intros Hexp Hmo.
  assert (Hr : Mem.minuteWindowStart (Mem.resolve now s) = now ∧
               Mem.minuteCount (Mem.resolve now s) = 0).
  { unfold Mem.resolve, Mem.ensureMinuteWindow.
    assert (E : (Mem.minuteWindowStart s =? 0)
                || (MINUTE_WINDOW_MS <=? now - Mem.minuteWindowStart s) = true).
    { apply orb_true_iff. destruct Hexp as [H|H]; [left; by apply Z.eqb_eq
                                                   | right; by apply Z.leb_le]. }
    rewrite E. unfold Mem.ensureMonthWindow. by destruct (negb _). }
  destruct Hr as [Ews Ec].
  destruct (Mem_allowed_remaining now s) as (Ha & Hh & Hs);
    [rewrite Ec; done | done |].
  destruct (Mem.consumeRateLimit now s) as [r s']. cbn [fst snd] in *. subst s'.
  split; [done |]. split; [by rewrite Hh, Ec |].
  unfold Mem_spent. mem_fields. by rewrite Ews, Ec.
Qed.

(** X3_Mem_expired_window_restarts on a full window, 70 s after it opened. *)
Lemma X3_Mem_expired_window_restarts_witness :
  let '(r, s') :=
    Mem.consumeRateLimit 1793583070500
      {| Mem.minuteWindowStart := 1793583000500; Mem.minuteCount := 20;
         Mem.monthKey := "2026-10"; Mem.monthCount := 20 |} in
  allowed r = true ∧
  headers r !! "x-ratelimit-remaining-minute" = Some "19" ∧
  Mem.minuteWindowStart s' = 1793583070500 ∧ Mem.minuteCount s' = 1.
Proof.
  apply (X3_Mem_expired_window_restarts 1793583070500
           {| Mem.minuteWindowStart := 1793583000500; Mem.minuteCount := 20;
              Mem.monthKey := "2026-10"; Mem.monthCount := 20 |}).
  - right. vm_compute. discriminate.
  - vm_compute. reflexivity.
Defined.

(** X4.  The in-memory month counter does not follow the minute window.
    After any call the stored month key is that of the call's clock reading;
    the stored month count is the previous one if the key was already that
    one, zero otherwise, plus one if the call was allowed.  Whether the
    minute window was reset by the call does not enter. *)
Theorem X4_Mem_month_counter (now : Z) (s : Mem.state) :
  let '(r, s') := Mem.consumeRateLimit now s in
  Mem.monthKey s' = Mem.getMonthKey now ∧
  Mem.monthCount s'
    = (if String.eqb (Mem.monthKey s) (Mem.getMonthKey now) then Mem.monthCount s else 0)
      + (if allowed r then 1 else 0).
Proof.
  assert (Hr : Mem.monthKey (Mem.resolve now s) = Mem.getMonthKey now ∧
               Mem.monthCount (Mem.resolve now s)
               = if String.eqb (Mem.monthKey s) (Mem.getMonthKey now)
                 then Mem.monthCount s else 0).
  { unfold Mem.resolve, Mem.ensureMonthWindow, Mem.ensureMinuteWindow.
    destruct (_ || _); mem_fields;
      destruct (String.eqb_spec (Mem.monthKey s) (Mem.getMonthKey now));
      cbn [negb]; mem_fields; done. }
  destruct Hr as [Ek Em].
  pose proof (Mem_consume_state now s) as Hs.
  destruct (Mem.consumeRateLimit now s) as [r s']. cbn [fst snd] in Hs. subst s'.
  destruct (allowed r); unfold Mem_spent; mem_fields; rewrite Ek, Em; split; [done | lia | done | lia].
Qed.

(** ** What the headers say *)

Lemma mkHeaders_limit_minute a b c d :
  Kv.mkHeaders a b c d !! "x-ratelimit-limit-minute" = Some "20".
Proof. unfold Kv.mkHeaders. header_lookup. Qed.

Lemma mkHeaders_limit_month a b c d :
  Kv.mkHeaders a b c d !! "x-ratelimit-limit-month" = Some "500".
Proof. unfold Kv.mkHeaders. header_lookup. Qed.

Lemma mkHeaders_reset_month a b c d :
  Kv.mkHeaders a b c d !! "x-ratelimit-reset-month" = Some (Js.String_ d).
Proof. unfold Kv.mkHeaders. header_lookup. Qed.

Lemma mkHeaders_dom a b c d :
  dom (Kv.mkHeaders a b c d) =
  ({[ "x-ratelimit-limit-minute"; "x-ratelimit-remaining-minute";
      "x-ratelimit-reset-minute"; "x-ratelimit-limit-month";
      "x-ratelimit-remaining-month"; "x-ratelimit-reset-month" ]} : gset string).
Proof. unfold Kv.mkHeaders. rewrite !dom_insert_L, dom_empty_L. set_solver. Qed.

(** The headers of the shared-store limiter, whatever the branch. *)
Lemma Kv_consume_headers now st :
  headers (Kv.consumeRateLimit now st).1 = Kv_headers now st.
Proof.
  destruct (Z.lt_ge_cases (Kv.currentMinuteCount now st) MAX_PER_MINUTE) as [H1|H1].
  - destruct (Z.lt_ge_cases (Kv.currentMonthCount now st) MAX_PER_MONTH) as [H2|H2].
    + by rewrite Kv_consume_allowed.
    + by rewrite Kv_consume_month_denied.
  - by rewrite Kv_consume_minute_denied.
Qed.

(** The headers of the in-memory limiter: of the state and counts after the
    call. *)
Lemma Mem_consume_headers now s :
  let s' := (Mem.consumeRateLimit now s).2 in
  headers (Mem.consumeRateLimit now s).1
  = Mem.buildHeaders now s' (Mem.minuteCount s') (Mem.monthCount s').
Proof.
  cbv zeta.
  destruct (Z.lt_ge_cases (Mem.minuteCount (Mem.resolve now s)) MAX_PER_MINUTE) as [H1|H1].
  - destruct (Z.lt_ge_cases (Mem.monthCount (Mem.resolve now s)) MAX_PER_MONTH) as [H2|H2].
    + by rewrite Mem_consume_allowed.
    + by rewrite Mem_consume_month_denied.
  - by rewrite Mem_consume_minute_denied.
Qed.

(** X5.  Every result of either limiter, allowed or denied, carries exactly
    the six quota headers, with [x-ratelimit-limit-minute = 20] and
    [x-ratelimit-limit-month = 500]; a denial for the minute reports
    [x-ratelimit-remaining-minute = 0] and a denial for the month reports
    [x-ratelimit-remaining-month = 0]. *)
Theorem X5_headers_on_every_outcome (now : Z) :
  let contract (r : RateLimitResult) :=
    dom (headers r) =
      ({[ "x-ratelimit-limit-minute"; "x-ratelimit-remaining-minute";
          "x-ratelimit-reset-minute"; "x-ratelimit-limit-month";
          "x-ratelimit-remaining-month"; "x-ratelimit-reset-month" ]} : gset string) ∧
    headers r !! "x-ratelimit-limit-minute" = Some "20" ∧
    headers r !! "x-ratelimit-limit-month" = Some "500" ∧
    (∀ retry, verdict r = Some (minute, retry) →
              headers r !! "x-ratelimit-remaining-minute" = Some "0") ∧
    (∀ retry, verdict r = Some (month, retry) →
              headers r !! "x-ratelimit-remaining-month" = Some "0") in
  (∀ s : Mem.state, contract (Mem.consumeRateLimit now s).1) ∧
  (∀ st : Kv.store, contract (Kv.consumeRateLimit now st).1).
Proof.
  cbv zeta. split.
  - intros s. rewrite Mem_consume_headers, buildHeaders_mkHeaders.
    split; [apply mkHeaders_dom |]. split; [apply mkHeaders_limit_minute |].
    split; [apply mkHeaders_limit_month |].
    rewrite mkHeaders_remaining_minute, mkHeaders_remaining_month.
    destruct (Z.lt_ge_cases (Mem.minuteCount (Mem.resolve now s)) MAX_PER_MINUTE) as [H1|H1];
      [destruct (Z.lt_ge_cases (Mem.monthCount (Mem.resolve now s)) MAX_PER_MONTH)
         as [H2|H2] |].
    + rewrite Mem_consume_allowed by done. cbn [fst verdict]. done.
    + rewrite Mem_consume_month_denied by done. cbn [fst snd verdict].
      split; [done |]. intros _ _. rewrite Z.max_l by lia. reflexivity.
    + rewrite Mem_consume_minute_denied by done. cbn [fst snd verdict].
      split; [| done]. intros _ _. rewrite Z.max_l by lia. reflexivity.
  - intros st. rewrite Kv_consume_headers. unfold Kv_headers.
    split; [apply mkHeaders_dom |]. split; [apply mkHeaders_limit_minute |].
    split; [apply mkHeaders_limit_month |].
    rewrite mkHeaders_remaining_minute, mkHeaders_remaining_month.
    destruct (Z.lt_ge_cases (Kv.currentMinuteCount now st) MAX_PER_MINUTE) as [H1|H1];
      [destruct (Z.lt_ge_cases (Kv.currentMonthCount now st) MAX_PER_MONTH) as [H2|H2] |].
    + rewrite Kv_consume_allowed by done. cbn [fst verdict]. done.
    + rewrite Kv_consume_month_denied by done. cbn [fst verdict].
      split; [done |]. intros _ _. rewrite Z.max_l by lia. reflexivity.
    + rewrite Kv_consume_minute_denied by done. cbn [fst verdict].
      split; [| done]. intros _ _. rewrite Z.max_l by lia. reflexivity.
Qed.

(** X5_headers_on_every_outcome on a minute denial of the in-memory limiter. *)
Lemma X5_headers_on_every_outcome_witness :
  headers (Mem.consumeRateLimit 1793583001000
             {| Mem.minuteWindowStart := 1793583000500; Mem.minuteCount := 20;
                Mem.monthKey := "2026-10"; Mem.monthCount := 20 |}).1
    !! "x-ratelimit-remaining-minute" = Some "0".
Proof.
  pose proof (proj1 (X5_headers_on_every_outcome 1793583001000)
                {| Mem.minuteWindowStart := 1793583000500; Mem.minuteCount := 20;
                   Mem.monthKey := "2026-10"; Mem.monthCount := 20 |})
    as (_ & _ & _ & Hmin & _).
  apply (Hmin (Some 59)). vm_compute. reflexivity.
Defined.

(** X6.  In an allowed result of the in-memory limiter the numbers returned
    beside the headers are the numbers in the headers:
    [x-ratelimit-remaining-minute] is [minuteRemaining],
    [x-ratelimit-remaining-month] is [monthRemaining], and neither is
    negative. *)
Theorem X6_Mem_fields_match_headers (now : Z) (s : Mem.state) h mr mo :
  (Mem.consumeRateLimit now s).1 = Allowed h mr mo →
  h !! "x-ratelimit-remaining-minute" = Some (Js.String_ mr) ∧
  h !! "x-ratelimit-remaining-month" = Some (Js.String_ mo) ∧
  0 ≤ mr ∧ 0 ≤ mo.
Proof.
  intros E.
  assert (Ha : allowed (Mem.consumeRateLimit now s).1 = true) by (by rewrite E).
  apply Mem_allowed_iff in Ha as [H1 H2].
  rewrite Mem_consume_allowed in E by done. cbn [fst] in E.
  injection E as <- <- <-.
  rewrite buildHeaders_mkHeaders, mkHeaders_remaining_minute, mkHeaders_remaining_month.
  repeat split; lia.
Qed.

(** X6_Mem_fields_match_headers on the first call of a new process. *)
Lemma X6_Mem_fields_match_headers_witness :
  ∃ h : gmap string string,
    h !! "x-ratelimit-remaining-minute" = Some (Js.String_ 19) ∧
    h !! "x-ratelimit-remaining-month" = Some (Js.String_ 499).
Proof.
  eexists.
  refine (let H := X6_Mem_fields_match_headers 1793583000500 Mem.init _ 19 499 _ in
          conj (proj1 H) (proj1 (proj2 H))).
  rewrite Mem_consume_allowed by (vm_compute; reflexivity). reflexivity.
Defined.

(** X7.  A minute denial never asks for more than a minute's wait as long as
    the clock has not gone back behind the window start: with
    [windowStart <= now], [1 <= retryAfterSeconds <= 60] in both limiters. *)
Theorem X7_retry_at_most_a_minute (now : Z) :
  (∀ (s : Mem.state) h retry,
     (Mem.consumeRateLimit now s).1 = Denied h minute retry →
     Mem.minuteWindowStart (Mem.resolve now s) ≤ now →
     ∃ n, retry = Some n ∧ 1 ≤ n ≤ 60) ∧
  (∀ (st : Kv.store) h retry,
     (Kv.consumeRateLimit now st).1 = Denied h minute retry →
     Kv.currentWindowStart now st ≤ now →
     ∃ n, retry = Some n ∧ 1 ≤ n ≤ 60).
Proof.
  split.
  - intros s h retry E Hws.
    destruct (Z.lt_ge_cases (Mem.minuteCount (Mem.resolve now s)) MAX_PER_MINUTE) as [H1|H1];
      [destruct (Z.lt_ge_cases (Mem.monthCount (Mem.resolve now s)) MAX_PER_MONTH)
         as [H2|H2] |].
    + rewrite Mem_consume_allowed in E by done. discriminate E.
    + rewrite Mem_consume_month_denied in E by done. discriminate E.
    + rewrite Mem_consume_minute_denied in E by done. cbn [fst] in E.
      injection E as _ <-. eexists. split; [reflexivity |].
      unfold Mem.minuteResetEpochSeconds.
      pose proof (floor_diff_ceil
                    (Mem.minuteWindowStart (Mem.resolve now s) + MINUTE_WINDOW_MS) now) as Hd.
      unfold Js.ceil_div, Js.floor_div, MINUTE_WINDOW_MS in *.
      pose proof (Z.div_mod
                    (- (Mem.minuteWindowStart (Mem.resolve now s) + 60000 - now)) 1000).
      pose proof (Z.mod_pos_bound
                    (- (Mem.minuteWindowStart (Mem.resolve now s) + 60000 - now)) 1000).
      lia.
  - intros st h retry E Hws.
    destruct (Z.lt_ge_cases (Kv.currentMinuteCount now st) MAX_PER_MINUTE) as [H1|H1];
      [destruct (Z.lt_ge_cases (Kv.currentMonthCount now st) MAX_PER_MONTH) as [H2|H2] |].
    + rewrite Kv_consume_allowed in E by done. discriminate E.
    + rewrite Kv_consume_month_denied in E by done. discriminate E.
    + rewrite Kv_consume_minute_denied in E by done. cbn [fst] in E.
      injection E as _ <-. eexists. split; [reflexivity |].
      unfold Js.ceil_div, MINUTE_WINDOW_MS.
      pose proof (Z.div_mod (- (Kv.currentWindowStart now st + 60000 - now)) 1000).
      pose proof (Z.mod_pos_bound (- (Kv.currentWindowStart now st + 60000 - now)) 1000).
      lia.
Qed.

(** X7_retry_at_most_a_minute on a full in-memory window, half a second on. *)
Lemma X7_retry_at_most_a_minute_witness :
  ∃ n, Some 59 = Some n ∧ 1 ≤ n ≤ 60.
Proof.
  refine (proj1 (X7_retry_at_most_a_minute 1793583001000)
            {| Mem.minuteWindowStart := 1793583000500; Mem.minuteCount := 20;
               Mem.monthKey := "2026-10"; Mem.monthCount := 20 |} _ (Some 59) _ _).
  - rewrite Mem_consume_minute_denied by (vm_compute; discriminate). reflexivity.
  - vm_compute. discriminate.
Defined.

(** ** The in-memory fallback of the lazily loading revision *)

(** The fallback resolves the month first and the minute second; the result
    is the in-memory limiter's resolution. *)
Lemma Fallback_cases now s :
  let r := Mem.resolve now (fallbackCounters s) in
  let h := Kv.mkHeaders (Z.max 0 (MAX_PER_MINUTE - Mem.minuteCount r))
             (Mem.minuteResetEpochSeconds r)
             (Z.max 0 (MAX_PER_MONTH - Mem.monthCount r))
             (Mem.nextMonthResetEpochSeconds now) in
  KvFallback.consumeRateLimitFallback now s =
  if MAX_PER_MINUTE <=? Mem.minuteCount r then
    (Denied h minute
       (Some (Z.max 1 (Mem.minuteResetEpochSeconds r - Js.floor_div now 1000))),
     withCounters s r)
  else if MAX_PER_MONTH <=? Mem.monthCount r then
    (Denied h month None, withCounters s r)
  else
    (Allowed h (MAX_PER_MINUTE - (Mem.minuteCount r + 1))
       (MAX_PER_MONTH - (Mem.monthCount r + 1)),
     withCounters s (Mem_spent r)).
Proof.
  cbv zeta. unfold Mem.resolve. rewrite <- Mem_ensure_comm.
  destruct s as [kv ws c k mc].
  unfold KvFallback.consumeRateLimitFallback, Mem.ensureMinuteWindow,
    Mem.ensureMonthWindow, fallbackCounters, Mem.minuteResetEpochSeconds,
    Mem.nextMonthResetEpochSeconds, Kv.getMonthKey, Mem.getMonthKey, Mem_spent.
  fallback_fields.
  generalize (Js.String_ (Js.getUTCFullYear now) +:+ "-" +:+ Js.String_ (Js.getUTCMonth now)).
  generalize (Js.floor_div (Js.Date_UTC (Js.getUTCFullYear now) (Js.getUTCMonth now + 1)) 1000).
  generalize (Js.floor_div now 1000).
  intros sec reset key.
  destruct (negb (String.eqb k key)); fallback_fields;
    destruct ((ws =? 0) || (MINUTE_WINDOW_MS <=? now - ws)); fallback_fields;
    unfold withCounters; fallback_fields;
    repeat match goal with |- context [if ?b then _ else _] => destruct b end;
    reflexivity.
Qed.

(** X8.  Without a store client the lazily loading limiter counts exactly as
    the in-memory limiter does.  On the same counters and the same clock
    reading the two take the same decision with the same reason and the same
    [retryAfterSeconds], leave the same counters, and an allowed result
    returns the same [minuteRemaining] and [monthRemaining]; only the
    headers of an allowed result differ, the fallback's being built before
    the increment.  The decision whether a client exists is not revisited. *)
Theorem X8_fallback_counts_like_Mem (now : Z) (s : KvFallback.state) :
  let '(r, s') := KvFallback.consumeRateLimitFallback now s in
  let '(rm, m') := Mem.consumeRateLimit now (fallbackCounters s) in
  verdict r = verdict rm ∧
  allowed r = allowed rm ∧
  fallbackCounters s' = m' ∧
  KvFallback.kvClient s' = KvFallback.kvClient s ∧
  remainingFields r = remainingFields rm ∧
  (allowed rm = true ∨ r = rm).
Proof.
  pose proof (Fallback_cases now s) as Hf. cbv zeta in Hf.
  destruct (Mem_resolve_counts now (fallbackCounters s)) as [Hc Hm].
  set (r0 := Mem.resolve now (fallbackCounters s)) in *.
  destruct (Z.lt_ge_cases (Mem.minuteCount r0) MAX_PER_MINUTE) as [H1|H1];
    [destruct (Z.lt_ge_cases (Mem.monthCount r0) MAX_PER_MONTH) as [H2|H2] |].
  - rewrite (Mem_consume_allowed now (fallbackCounters s)) by done. fold r0.
    apply Z.leb_gt in H1 as H1'. apply Z.leb_gt in H2 as H2'.
    rewrite H1', H2' in Hf. rewrite Hf.
    cbn [verdict allowed remainingFields]. repeat split; try done; [| by left].
    do 2 f_equal; unfold MAX_PER_MINUTE, MAX_PER_MONTH in *; lia.
  - rewrite (Mem_consume_month_denied now (fallbackCounters s)) by done. fold r0.
    apply Z.leb_gt in H1 as H1'. apply Z.leb_le in H2 as H2'.
    rewrite H1', H2' in Hf. rewrite Hf, buildHeaders_mkHeaders.
    cbn [verdict allowed remainingFields]. repeat split; try done; [by destruct r0 | by right].
  - rewrite (Mem_consume_minute_denied now (fallbackCounters s)) by done. fold r0.
    apply Z.leb_le in H1 as H1'. rewrite H1' in Hf. rewrite Hf, buildHeaders_mkHeaders.
    cbn [verdict allowed remainingFields]. repeat split; try done; [by destruct r0 | by right].
Qed.

(** ** The shared-store limiter *)

(** X9.  The shared-store snapshot reads the stored minute count without
    testing the window.  While the window read is not expired, the snapshot
    returns exactly the headers a [consumeRateLimit] at that clock reading
    returns.  Over a record that is still stored but whose window has
    expired, the snapshot still reports what is left of the old window,
    [max(0, 20 - count)], where [consumeRateLimit] reports 20. *)
Theorem X9_Kv_snapshot_against_consume (now : Z) (st : Kv.store) :
  (now - Kv.currentWindowStart now st < MINUTE_WINDOW_MS →
   Kv.rateLimitSnapshotHeaders now st = headers (Kv.consumeRateLimit now st).1) ∧
  (∀ md, Kv.get_minute now st = Some md →
         MINUTE_WINDOW_MS ≤ now - Kv.windowStart md →
         Kv.rateLimitSnapshotHeaders now st !! "x-ratelimit-remaining-minute"
           = Some (Js.String_ (Z.max 0 (MAX_PER_MINUTE - Kv.count md))) ∧
         headers (Kv.consumeRateLimit now st).1 !! "x-ratelimit-remaining-minute"
           = Some "20").
Proof.
  split.
  - intros Hw. rewrite Kv_consume_headers.
    unfold Kv.rateLimitSnapshotHeaders, Kv_headers, Kv.currentMinuteCount,
      Kv.currentMonthCount.
    fold (Kv.currentWindowStart now st).
    apply Z.leb_gt in Hw. by rewrite Hw.
  - intros md Hmd Hexp. rewrite Kv_consume_headers.
    unfold Kv.rateLimitSnapshotHeaders, Kv_headers, Kv.currentMinuteCount,
      Kv.currentWindowStart.
    rewrite !mkHeaders_remaining_minute, Hmd.
    cbn [fmap option_fmap option_map default]. unfold id.
    apply Z.leb_le in Hexp. by rewrite Hexp.
Qed.

(** X9_Kv_snapshot_against_consume on a record written 59 s into its window
    and read 61 s and then 30 s into it. *)
Lemma X9_Kv_snapshot_against_consume_witness :
  let st := Kv.set_minute 1793583059000
              {| Kv.count := 20; Kv.windowStart := 1793583000000 |} 60 Kv.empty in
  (Kv.rateLimitSnapshotHeaders 1793583061000 st !! "x-ratelimit-remaining-minute"
     = Some (Js.String_ (Z.max 0 (MAX_PER_MINUTE - 20))) ∧
   headers (Kv.consumeRateLimit 1793583061000 st).1 !! "x-ratelimit-remaining-minute"
     = Some "20") ∧
  Kv.rateLimitSnapshotHeaders 1793583030000 st
    = headers (Kv.consumeRateLimit 1793583030000 st).1.
Proof.
  intros st. split.
  - apply (proj2 (X9_Kv_snapshot_against_consume 1793583061000 st)
             {| Kv.count := 20; Kv.windowStart := 1793583000000 |}).
    + reflexivity.
    + vm_compute. discriminate.
  - apply (proj1 (X9_Kv_snapshot_against_consume 1793583030000 st)).
    vm_compute. reflexivity.
Defined.

Lemma Kv_current_counts now st :
  (Kv.currentMinuteCount now st = 0 ∨
   ∃ md e, Kv.minuteRecord st = Some (md, e) ∧ Kv.currentMinuteCount now st = Kv.count md) ∧
  (Kv.currentMonthCount now st = 0 ∨
   ∃ n e, Kv.monthRecords st !! ("rate:month:" +:+ Kv.getMonthKey now) = Some (n, e) ∧
          Kv.currentMonthCount now st = n).
Proof.
  split.
  - unfold Kv.currentMinuteCount, Kv.currentWindowStart, Kv.get_minute.
    destruct (MINUTE_WINDOW_MS <=? _); [by left |].
    destruct (Kv.minuteRecord st) as [[md e]|]; [| by left].
    cbn [mbind option_bind]. unfold Kv.live. cbn [fst snd].
    destruct (e <=? now); [by left |]. right. by exists md, e.
  - unfold Kv.currentMonthCount, Kv.get_month.
    destruct (Kv.monthRecords st !! _) as [[n e]|]; [| by left].
    cbn [mbind option_bind]. unfold Kv.live. cbn [fst snd].
    destruct (e <=? now); [by left |]. right. by exists n, e.
Qed.

(** X10.  The shared store never holds a count outside its cap: if every
    stored minute count is within 1..20 and every stored month count within
    1..500, the same is true after any run of [consumeRateLimit] calls at
    any clock readings.  The empty store is such a store. *)
Theorem X10_Kv_stored_counts_within_caps (times : list Z) (st : Kv.store) :
  let within (st : Kv.store) :=
    (∀ md e, Kv.minuteRecord st = Some (md, e) → 1 ≤ Kv.count md ≤ MAX_PER_MINUTE) ∧
    (∀ k n e, Kv.monthRecords st !! k = Some (n, e) → 1 ≤ n ≤ MAX_PER_MONTH) in
  within Kv.empty ∧
  (within st → within (consumeEach Kv.consumeRateLimit times st).2).
Proof.
  cbv zeta. split;
    [split; [done |]; intros k n e; cbn [Kv.empty Kv.monthRecords]; by rewrite lookup_empty |].
  revert st. induction times as [|t ts IH]; intros st Hin; [done |].
  rewrite consumeEach_cons. cbn [snd]. apply IH. clear IH.
  destruct Hin as [Hmi Hmo]. rewrite Kv_consume_state.
  destruct (allowed (Kv.consumeRateLimit t st).1) eqn:Ha; [| done].
  apply Kv_allowed_iff in Ha as [H1 H2].
  destruct (Kv_current_counts t st) as [Hc Hm].
  assert (Hc0 : 0 ≤ Kv.currentMinuteCount t st).
  { destruct Hc as [-> | (md & e & Hr & ->)]; [done |]. specialize (Hmi md e Hr). lia. }
  assert (Hm0 : 0 ≤ Kv.currentMonthCount t st).
  { destruct Hm as [-> | (n & e & Hr & ->)]; [done |]. specialize (Hmo _ n e Hr). lia. }
  unfold Kv_spent, Kv.set_month, Kv.set_minute. cbn [Kv.minuteRecord Kv.monthRecords].
  split.
  - intros md e [= <- _]. cbn [Kv.count]. unfold MAX_PER_MINUTE in *. lia.
  - intros k n e. rewrite lookup_insert. case_decide.
    + intros [= <- _]. unfold MAX_PER_MONTH in *. lia.
    + apply Hmo.
Qed.

(** X10_Kv_stored_counts_within_caps from the empty store, over twenty-five
    calls within a second and one in the next minute. *)
Lemma X10_Kv_stored_counts_within_caps_witness :
  let st := (consumeEach Kv.consumeRateLimit
               (replicate 25 1793583000500 ++ [1793583070000])%list Kv.empty).2 in
  ∃ md e, Kv.minuteRecord st = Some (md, e) ∧ 1 ≤ Kv.count md ≤ MAX_PER_MINUTE.
Proof.
  intros st.
  pose proof (X10_Kv_stored_counts_within_caps
                (replicate 25 1793583000500 ++ [1793583070000])%list Kv.empty) as [He Hrun].
  assert (Hst : Kv.minuteRecord st
                = Some ({| Kv.count := 1; Kv.windowStart := 1793583070000 |}, 1793583130000))
    by (vm_compute; reflexivity).
  eexists _, _. split; [exact Hst |]. exact (proj1 (Hrun He) _ _ Hst).
Defined.




(** ** The routes, branch by branch *)

(** X12.  A request to the keyed route without an [id], or with an empty
    one, is answered 400 ["id required"] with no headers before anything
    else happens: the limiter is not called, so no quota is spent, nothing
    is fetched and the whole module state is as before.  For any limiter. *)
Theorem X12_missing_id_spends_nothing {L : Type}
    (consume : Z → L → RateLimitResult * L) (clk : clock)
    (req : Performance.request) (up : fetched) (s : Performance.state L) :
  Performance.id req = None ∨ Performance.id req = Some "" →
  Performance.GET consume clk req up s
  = mkOutcome (Some {| status := 400; content := Failure "id required"; rheaders := ∅ |})
      [] s.
Proof. intros [H|H]; unfold Performance.GET; rewrite H; reflexivity. Qed.

(** X12_missing_id_spends_nothing on [?id=&limit=10] at a limiter with one
    unit left. *)
Lemma X12_missing_id_spends_nothing_witness :
  after (Performance.GET Mem.consumeRateLimit (mkClock 1793583001000 1793583001000 1793583001000)
           (Performance.mkRequest (Some "") (Some "10") None) (Resolved 200 (Some Js.JNull))
           (Performance.mkState
              {| Mem.minuteWindowStart := 1793583000500; Mem.minuteCount := 19;
                 Mem.monthKey := "2026-10"; Mem.monthCount := 19 |} ∅))
  = Performance.mkState
      {| Mem.minuteWindowStart := 1793583000500; Mem.minuteCount := 19;
         Mem.monthKey := "2026-10"; Mem.monthCount := 19 |} ∅.
Proof.
  rewrite (X12_missing_id_spends_nothing Mem.consumeRateLimit); [reflexivity |].
  right. reflexivity.
Defined.

(** X13.  An allowed request that finds a fresh entry is answered 200 with
    the cached payload and the headers of its own [consumeRateLimit] call;
    the upstream is not fetched, the cache is left as it was, and the quota
    unit is spent all the same.  Both routes, the keyed one for any
    limiter. *)
Theorem X13_fresh_hit_skips_upstream (clk : clock) (up : fetched) (d : Js.json) :
  (∀ (s : Indices.state) h mr mo,
     (Mem.consumeRateLimit (at_quota clk) (Indices.limiter s)).1 = Allowed h mr mo →
     Indices.get (at_lookup clk) (Indices.CACHE s) = Some d →
     let o := Indices.GET clk up s in
     reply o = Some {| status := 200; content := Payload d; rheaders := h |} ∧
     fetches o = [] ∧
     Indices.CACHE (after o) = Indices.CACHE s ∧
     Indices.limiter (after o)
       = (Mem.consumeRateLimit (at_quota clk) (Indices.limiter s)).2) ∧
  (∀ (L : Type) (consume : Z → L → RateLimitResult * L)
     (s : Performance.state L) (i : string) (l p : option string) h mr mo,
     i ≠ "" →
     (consume (at_quota clk) (Performance.limiter s)).1 = Allowed h mr mo →
     Performance.get (at_lookup clk)
       (Performance.cacheKey i (default "50" l) (default "1" p))
       (Performance.CACHE s) = Some d →
     let o := Performance.GET consume clk (Performance.mkRequest (Some i) l p) up s in
     reply o = Some {| status := 200; content := Payload d; rheaders := h |} ∧
     fetches o = [] ∧
     Performance.CACHE (after o) = Performance.CACHE s ∧
     Performance.limiter (after o)
       = (consume (at_quota clk) (Performance.limiter s)).2).
Proof.
  split.
  - intros s h mr mo Hq Hhit. unfold Indices.GET.
    destruct (Mem.consumeRateLimit (at_quota clk) (Indices.limiter s)) as [q lim].
    cbn [fst snd] in *. subst q. cbn [Indices.CACHE]. rewrite Hhit. done.
  - intros L consume s i l p h mr mo Hi Hq Hhit.
    apply String.eqb_neq in Hi. unfold Performance.GET.
    cbn [Performance.id Performance.limit Performance.page]. rewrite Hi.
    destruct (consume (at_quota clk) (Performance.limiter s)) as [q lim].
    cbn [fst snd] in *. subst q. cbn [Performance.CACHE].
    unfold Performance.get in Hhit. rewrite Hhit. done.
Qed.

(** X13_fresh_hit_skips_upstream on an entry stored 30 s before the lookup. *)
Lemma X13_fresh_hit_skips_upstream_witness :
  let clk := mkClock 1793583030000 1793583030001 1793583030400 in
  let d := Js.JObj [("success", Js.JBool true)] in
  let s := Indices.mkState Mem.init (Indices.mkCache d 1793583000900) in
  fetches (Indices.GET clk Rejected s) = [] ∧
  Indices.limiter (after (Indices.GET clk Rejected s))
    = (Mem.consumeRateLimit 1793583030000 Mem.init).2.
Proof.
  intros clk d s.
  edestruct (proj1 (X13_fresh_hit_skips_upstream clk Rejected d) s)
    as (_ & Hf & _ & Hl).
  - rewrite Mem_consume_allowed by (vm_compute; reflexivity). reflexivity.
  - reflexivity.
  - split; [exact Hf | exact Hl].
Defined.

(** X14.  An allowed request that misses the cache and whose upstream call
    succeeds with a parsable body is answered 200 with that body, whichever
    2xx status the upstream gave, under the headers of its
    [consumeRateLimit] call; the upstream was fetched once and the body is
    stored under the request's key with the clock reading taken after the
    fetch.  A lookup less than 60,000 ms after that reading returns the
    body in the keyed route; in the parameterless route it returns the body
    if the body is truthy and misses if it is falsy. *)
Theorem X14_upstream_success_fills_cache (clk : clock) (st : Z) (d : Js.json) :
  ok st = true →
  (∀ (s : Indices.state) h mr mo,
     (Mem.consumeRateLimit (at_quota clk) (Indices.limiter s)).1 = Allowed h mr mo →
     Indices.get (at_lookup clk) (Indices.CACHE s) = None →
     let o := Indices.GET clk (Resolved st (Some d)) s in
     reply o = Some {| status := 200; content := Payload d; rheaders := h |} ∧
     fetches o = [Indices.API_URL] ∧
     Indices.CACHE (after o) = {| Indices.data := d; Indices.ts := at_store clk |} ∧
     ∀ now, now - at_store clk < HOT_CACHE_TTL_MS →
            Indices.get now (Indices.CACHE (after o))
            = if Js.truthy d then Some d else None) ∧
  (∀ (L : Type) (consume : Z → L → RateLimitResult * L)
     (s : Performance.state L) (i : string) (l p : option string) h mr mo,
     i ≠ "" →
     (consume (at_quota clk) (Performance.limiter s)).1 = Allowed h mr mo →
     let key := Performance.cacheKey i (default "50" l) (default "1" p) in
     Performance.get (at_lookup clk) key (Performance.CACHE s) = None →
     let o := Performance.GET consume clk (Performance.mkRequest (Some i) l p)
                (Resolved st (Some d)) s in
     reply o = Some {| status := 200; content := Payload d; rheaders := h |} ∧
     fetches o = [Performance.upstreamUrl i (default "50" l) (default "1" p)] ∧
     Performance.CACHE (after o)
       = <[key := {| Performance.data := d; Performance.ts := at_store clk |}]>
           (Performance.CACHE s) ∧
     ∀ now, now - at_store clk < HOT_CACHE_TTL_MS →
            Performance.get now key (Performance.CACHE (after o)) = Some d).
Proof.
  intros Hok. split.
  - intros s h mr mo Hq Hmiss. unfold Indices.GET.
    destruct (Mem.consumeRateLimit (at_quota clk) (Indices.limiter s)) as [q lim].
    cbn [fst snd] in *. subst q. cbn [Indices.CACHE]. rewrite Hmiss, Hok.
    cbn [negb reply fetches after Indices.CACHE].
    split; [done |]. split; [done |]. split; [done |].
    intros now Hnow. unfold Indices.get, Indices.put. cbn [Indices.data Indices.ts].
    apply Z.ltb_lt in Hnow. rewrite Hnow. by destruct (Js.truthy d).
  - intros L consume s i l p h mr mo Hi Hq key Hmiss.
    apply String.eqb_neq in Hi. unfold Performance.GET.
    cbn [Performance.id Performance.limit Performance.page]. rewrite Hi.
    destruct (consume (at_quota clk) (Performance.limiter s)) as [q lim].
    cbn [fst snd] in *. subst q. cbn [Performance.CACHE].
    unfold Performance.get in Hmiss. fold key. rewrite Hmiss, Hok.
    cbn [negb reply fetches after Performance.CACHE].
    split; [done |]. split; [done |]. split; [done |].
    intros now Hnow. unfold Performance.get, Performance.put.
    rewrite lookup_insert_eq. cbn [Performance.fresh Performance.ts Performance.data].
    apply Z.ltb_lt in Hnow. by rewrite Hnow.
Qed.

(** X14_upstream_success_fills_cache on a new process and an upstream that
    answers 201, with an object for a body and with [null] for a body: the
    object is found 100 ms later, the [null] is not. *)
Lemma X14_upstream_success_fills_cache_witness :
  let clk := mkClock 1793583000500 1793583000501 1793583000900 in
  let d := Js.JObj [("success", Js.JBool true)] in
  ((status <$> reply (Indices.GET clk (Resolved 201 (Some d)) Indices.init)) = Some 200 ∧
   Indices.CACHE (after (Indices.GET clk (Resolved 201 (Some d)) Indices.init))
     = {| Indices.data := d; Indices.ts := 1793583000900 |} ∧
   Indices.get 1793583001000
     (Indices.CACHE (after (Indices.GET clk (Resolved 201 (Some d)) Indices.init)))
     = Some d) ∧
  Indices.get 1793583001000
    (Indices.CACHE (after (Indices.GET clk (Resolved 201 (Some Js.JNull)) Indices.init)))
    = None.
Proof.
  intros clk d. split.
  - edestruct (proj1 (X14_upstream_success_fills_cache clk 201 d eq_refl)
                 Indices.init) as (Hr & _ & Hc & Hg).
    + rewrite Mem_consume_allowed by (vm_compute; reflexivity). reflexivity.
    + reflexivity.
    + split; [by rewrite Hr |]. split; [exact Hc |].
      apply (Hg 1793583001000). reflexivity.
  - edestruct (proj1 (X14_upstream_success_fills_cache clk 201 Js.JNull eq_refl)
                 Indices.init) as (_ & _ & _ & Hg).
    + rewrite Mem_consume_allowed by (vm_compute; reflexivity). reflexivity.
    + reflexivity.
    + apply (Hg 1793583001000). reflexivity.
Defined.

(** X15.  When the upstream call of an allowed request fails without a
    response ([fetch] rejects) or answers 2xx with a body that is not JSON,
    the handler throws: there is no reply of its own, the cache is left as
    it was, and the quota unit spent before the fetch stays spent.  Both
    routes, the keyed one for any limiter. *)
Theorem X15_throwing_fetch_keeps_quota_spent (clk : clock) (up : fetched) :
  up = Rejected ∨ (∃ st, ok st = true ∧ up = Resolved st None) →
  (∀ (s : Indices.state),
     allowed (Mem.consumeRateLimit (at_quota clk) (Indices.limiter s)).1 = true →
     Indices.get (at_lookup clk) (Indices.CACHE s) = None →
     let o := Indices.GET clk up s in
     reply o = None ∧ fetches o = [Indices.API_URL] ∧
     Indices.CACHE (after o) = Indices.CACHE s ∧
     Indices.limiter (after o)
       = (Mem.consumeRateLimit (at_quota clk) (Indices.limiter s)).2) ∧
  (∀ (L : Type) (consume : Z → L → RateLimitResult * L)
     (s : Performance.state L) (i : string) (l p : option string),
     i ≠ "" →
     allowed (consume (at_quota clk) (Performance.limiter s)).1 = true →
     Performance.get (at_lookup clk)
       (Performance.cacheKey i (default "50" l) (default "1" p))
       (Performance.CACHE s) = None →
     let o := Performance.GET consume clk (Performance.mkRequest (Some i) l p) up s in
     reply o = None ∧
     fetches o = [Performance.upstreamUrl i (default "50" l) (default "1" p)] ∧
     Performance.CACHE (after o) = Performance.CACHE s ∧
     Performance.limiter (after o)
       = (consume (at_quota clk) (Performance.limiter s)).2).
Proof.
  intros Hup. split.
  - intros s Hq Hmiss. unfold Indices.GET.
    destruct (Mem.consumeRateLimit (at_quota clk) (Indices.limiter s))
      as [[h mr mo|h why retry] lim]; [| discriminate Hq].
    cbn [snd Indices.CACHE]. rewrite Hmiss.
    destruct Hup as [-> | (st & Hok & ->)]; [done |]. by rewrite Hok.
  - intros L consume s i l p Hi Hq Hmiss.
    apply String.eqb_neq in Hi. unfold Performance.GET.
    cbn [Performance.id Performance.limit Performance.page]. rewrite Hi.
    destruct (consume (at_quota clk) (Performance.limiter s))
      as [[h mr mo|h why retry] lim]; [| discriminate Hq].
    cbn [snd Performance.CACHE]. unfold Performance.get in Hmiss. rewrite Hmiss.
    destruct Hup as [-> | (st & Hok & ->)]; [done |]. by rewrite Hok.
Qed.

(** X15_throwing_fetch_keeps_quota_spent on a new process whose first fetch
    is rejected. *)
Lemma X15_throwing_fetch_keeps_quota_spent_witness :
  let clk := mkClock 1793583000500 1793583000501 1793583000900 in
  let o := Indices.GET clk Rejected Indices.init in
  reply o = None ∧
  Indices.limiter (after o) = (Mem.consumeRateLimit 1793583000500 Mem.init).2.
Proof.
  intros clk o.
  destruct (proj1 (X15_throwing_fetch_keeps_quota_spent clk Rejected (or_introl eq_refl))
              Indices.init) as (Hr & _ & _ & Hl).
  - vm_compute. reflexivity.
  - reflexivity.
  - split; [exact Hr | exact Hl].
Defined.

(** X16.  A request refused for the minute is answered 429 with the minute
    message and a [retry-after] header holding [retryAfterSeconds], which is
    at least 1; every other header is the limiter's, nothing is fetched.
    The parameterless route on the in-memory limiter and the keyed route on
    the shared store. *)
Theorem X16_minute_denial_reply (clk : clock) (up : fetched) :
  let message :=
    "Minute rate limit reached (20 req/min). Please wait before refreshing again." in
  (∀ s : Indices.state,
     MAX_PER_MINUTE ≤ Mem.minuteCount (Mem.resolve (at_quota clk) (Indices.limiter s)) →
     ∃ resp n,
       reply (Indices.GET clk up s) = Some resp ∧
       fetches (Indices.GET clk up s) = [] ∧
       status resp = 429 ∧ content resp = Failure message ∧
       verdict (Mem.consumeRateLimit (at_quota clk) (Indices.limiter s)).1
         = Some (minute, Some n) ∧
       1 ≤ n ∧ rheaders resp !! "retry-after" = Some (Js.String_ n) ∧
       ∀ k, k ≠ "retry-after" →
            rheaders resp !! k
            = headers (Mem.consumeRateLimit (at_quota clk) (Indices.limiter s)).1 !! k) ∧
  (∀ (s : Performance.state Kv.store) (i : string) (l p : option string),
     i ≠ "" →
     MAX_PER_MINUTE ≤ Kv.currentMinuteCount (at_quota clk) (Performance.limiter s) →
     let o := Performance.GET Kv.consumeRateLimit clk
                (Performance.mkRequest (Some i) l p) up s in
     ∃ resp n,
       reply o = Some resp ∧ fetches o = [] ∧
       status resp = 429 ∧ content resp = Failure message ∧
       verdict (Kv.consumeRateLimit (at_quota clk) (Performance.limiter s)).1
         = Some (minute, Some n) ∧
       1 ≤ n ∧ rheaders resp !! "retry-after" = Some (Js.String_ n) ∧
       ∀ k, k ≠ "retry-after" →
            rheaders resp !! k
            = headers (Kv.consumeRateLimit (at_quota clk) (Performance.limiter s)).1 !! k).
Proof.
  assert (Hq : ∀ (h : gmap string string) n, 1 ≤ n →
             status (quotaDenied h minute (Some n)) = 429 ∧
             content (quotaDenied h minute (Some n))
               = Failure "Minute rate limit reached (20 req/min). Please wait before refreshing again." ∧
             rheaders (quotaDenied h minute (Some n)) !! "retry-after" = Some (Js.String_ n) ∧
             ∀ k, k ≠ "retry-after" →
                  rheaders (quotaDenied h minute (Some n)) !! k = h !! k).
  { intros h n Hn. unfold quotaDenied. cbn [status content rheaders].
    destruct (Z.eqb_spec n 0) as [->|_]; [lia |].
    split; [done |]. split; [done |]. split; [by rewrite lookup_insert_eq |].
    intros k Hk. by rewrite lookup_insert_ne. }
  cbv zeta. split.
  - intros s Hfull.
    pose proof (Mem_consume_minute_denied (at_quota clk) (Indices.limiter s) Hfull) as E.
    destruct (Indices_GET_denied clk up s _ _ _ (f_equal fst E)) as (Hr & Hf & _).
    rewrite Hr, Hf, E. cbn [fst verdict headers].
    set (n := Z.max 1 _).
    destruct (Hq (Mem.buildHeaders (at_quota clk)
                    (Mem.resolve (at_quota clk) (Indices.limiter s))
                    (Mem.minuteCount (Mem.resolve (at_quota clk) (Indices.limiter s)))
                    (Mem.monthCount (Mem.resolve (at_quota clk) (Indices.limiter s))))
                 n ltac:(lia)) as (H1 & H2 & H3 & H4).
    eexists _, n. repeat split; try done. lia.
  - intros s i l p Hi Hfull.
    pose proof (Kv_consume_minute_denied (at_quota clk) (Performance.limiter s) Hfull) as E.
    destruct (Performance_GET_denied Kv.consumeRateLimit clk i l p up s _ _ _ Hi
                (f_equal fst E)) as (Hr & Hf & _).
    rewrite Hr, Hf, E. cbn [fst verdict headers].
    set (n := Z.max 1 _).
    destruct (Hq (Kv_headers (at_quota clk) (Performance.limiter s)) n ltac:(lia))
      as (H1 & H2 & H3 & H4).
    eexists _, n. repeat split; try done. lia.
Qed.

(** X16_minute_denial_reply on a full in-memory window, half a second on. *)
Lemma X16_minute_denial_reply_witness :
  let clk := mkClock 1793583001000 1793583001000 1793583001000 in
  let s := Indices.mkState
             {| Mem.minuteWindowStart := 1793583000500; Mem.minuteCount := 20;
                Mem.monthKey := "2026-10"; Mem.monthCount := 20 |}
             (Indices.mkCache Js.JNull 0) in
  ∃ resp n, reply (Indices.GET clk Rejected s) = Some resp ∧
            status resp = 429 ∧ 1 ≤ n ∧
            rheaders resp !! "retry-after" = Some (Js.String_ n).
Proof.
  intros clk s.
  destruct (proj1 (X16_minute_denial_reply clk Rejected) s)
    as (resp & n & Hr & _ & Hs & _ & _ & Hn & Hh & _).
  - vm_compute. discriminate.
  - exists resp, n. repeat split; assumption.
Defined.

(** ** The upstream behind the parameterless route *)

Lemma Indices_GET_fetches clk up s :
  Z.of_nat (length (fetches (Indices.GET clk up s)))
  ≤ if allowed (Mem.consumeRateLimit (at_quota clk) (Indices.limiter s)).1 then 1 else 0.
Proof.
  unfold Indices.GET.
  destruct (Mem.consumeRateLimit (at_quota clk) (Indices.limiter s))
    as [[h mr mo|h why retry] lim]; cbn [fst allowed]; [| done].
  destruct (Indices.get _ _); [done |].
  destruct up as [|st [d|]]; try done; destruct (negb (ok st)); done.
Qed.

Lemma serveAll_cons {L : Type} (consume : Z → L → RateLimitResult * L) c cs a :
  App.serveAll consume (c :: cs) a =
  (reply (App.serve consume c a) :: (App.serveAll consume cs (after (App.serve consume c a))).1.1,
   (fetches (App.serve consume c a)
      ++ (App.serveAll consume cs (after (App.serve consume c a))).1.2)%list,
   (App.serveAll consume cs (after (App.serve consume c a))).2).
Proof.
  cbn [App.serveAll].
  by destruct (App.serveAll consume cs (after (App.serve consume c a))) as [[rs fs] a'].
Qed.

(** X17.  Through [/api/indices] the upstream is fetched at most as often as
    the in-memory window has units left: over any sequence of requests to
    that route whose quota checks all fall inside the open window, whatever
    the cache holds and whatever the upstream answers, the number of fetches
    is at most [max(0, 20 - minuteCount)]. *)
Theorem X17_indices_fetches_within_cap {L : Type}
    (consume : Z → L → RateLimitResult * L) (calls : list (clock * fetched)) :
  ∀ a : App.state L,
    let lim := Indices.limiter (App.indices a) in
    Mem.minuteWindowStart lim ≠ 0 →
    (∀ c, c ∈ calls → at_quota c.1 - Mem.minuteWindowStart lim < MINUTE_WINDOW_MS) →
    Z.of_nat (length (App.serveAll consume
                        ((λ c, App.GetIndices c.1 c.2) <$> calls) a).1.2)
      ≤ Z.max 0 (MAX_PER_MINUTE - Mem.minuteCount lim).
Proof.
  induction calls as [|[clk up] cs IH]; intros a lim H0 Hw.
  - cbn. lia.
  - rewrite fmap_cons, serveAll_cons. cbn [fst snd]. rewrite length_app, Nat2Z.inj_add.
    cbn [App.serve fetches after].
    pose proof (Indices_GET_fetches clk up (App.indices a)) as Hf.
    destruct (Mem_resolve_in_window (at_quota clk) lim H0 (Hw (clk, up) ltac:(left)))
      as (Ews & Ec & _).
    set (a' := App.mkState (after (Indices.GET clk up (App.indices a))) (App.performance a)).
    assert (Hl : Indices.limiter (App.indices a')
                 = (Mem.consumeRateLimit (at_quota clk) lim).2)
      by apply Indices_GET_limiter.
    rewrite Mem_consume_state in Hl.
    specialize (IH a'). cbv zeta in IH. rewrite Hl in IH.
    assert (Hw' : ∀ c, c ∈ cs → at_quota c.1 - Mem.minuteWindowStart lim < MINUTE_WINDOW_MS)
      by (intros c Hc; apply Hw; by right).
    fold lim in Hf.
    destruct (allowed (Mem.consumeRateLimit (at_quota clk) lim).1) eqn:Ha.
    + apply Mem_allowed_iff in Ha as [H1 _]. rewrite Ec in H1.
      assert (Ews' : Mem.minuteWindowStart (Mem_spent (Mem.resolve (at_quota clk) lim))
                     = Mem.minuteWindowStart lim) by done.
      assert (Ec' : Mem.minuteCount (Mem_spent (Mem.resolve (at_quota clk) lim))
                    = Mem.minuteCount lim + 1) by (unfold Mem_spent; mem_fields; lia).
      rewrite Ews', Ec' in IH. specialize (IH H0 Hw'). lia.
    + rewrite Ews, Ec in IH. specialize (IH H0 Hw'). lia.
Qed.

(** X17_indices_fetches_within_cap on thirty requests, each answered 503, in
    the second after a window was opened with five requests counted. *)
Lemma X17_indices_fetches_within_cap_witness :
  let clk := mkClock 1793583001000 1793583001000 1793583001000 in
  let a := App.mkState
             (Indices.mkState
                {| Mem.minuteWindowStart := 1793583000500; Mem.minuteCount := 5;
                   Mem.monthKey := "2026-10"; Mem.monthCount := 5 |}
                (Indices.mkCache Js.JNull 0))
             (Performance.mkState Kv.empty ∅) in
  Z.of_nat (length (App.serveAll Kv.consumeRateLimit
                      ((λ c, App.GetIndices c.1 c.2)
                         <$> replicate 30 (clk, Resolved 503 None)) a).1.2)
  ≤ Z.max 0 (MAX_PER_MINUTE - 5).
Proof.
  intros clk a.
  apply (X17_indices_fetches_within_cap Kv.consumeRateLimit
           (replicate 30 (clk, Resolved 503 None)) a).
  - discriminate.
  - intros c Hc. apply elem_of_replicate in Hc as [-> _]. reflexivity.
Defined.

(** ** The month *)

Lemma Mem_resolve_month now s :
  Mem.monthKey (Mem.resolve now s) = Mem.getMonthKey now ∧
  Mem.monthCount (Mem.resolve now s)
  = if String.eqb (Mem.monthKey s) (Mem.getMonthKey now) then Mem.monthCount s else 0.
Proof.
  unfold Mem.resolve, Mem.ensureMonthWindow, Mem.ensureMinuteWindow.
  destruct (_ || _); mem_fields;
    destruct (String.eqb_spec (Mem.monthKey s) (Mem.getMonthKey now));
    cbn [negb]; mem_fields; done.
Qed.

(** X18.  Within one month the in-memory limiter lets through at most what
    the month has left: over calls whose clock readings all have the stored
    month key, however they fall into minute windows, the calls allowed
    number at most [max(0, 500 - monthCount)]. *)
Theorem X18_Mem_month_lets_through_at_most_cap (times : list Z) (s : Mem.state) :
  (∀ t, t ∈ times → Mem.getMonthKey t = Mem.monthKey s) →
  allowedCount (consumeEach Mem.consumeRateLimit times s).1
    ≤ Z.max 0 (MAX_PER_MONTH - Mem.monthCount s).
Proof.
  revert s. induction times as [|t ts IH]; intros s Hk.
  - cbn [consumeEach fst allowedCount]. lia.
  - rewrite consumeEach_cons. cbn [fst allowedCount].
    destruct (Mem_resolve_month t s) as [Ek Em].
    rewrite <- (Hk t ltac:(left)), String.eqb_refl in Em.
    rewrite Mem_consume_state.
    assert (Hk' : ∀ t', t' ∈ ts → Mem.getMonthKey t' = Mem.getMonthKey t).
    { intros t' Ht'. rewrite (Hk t' ltac:(by right)). symmetry. apply Hk. by left. }
    destruct (allowed (Mem.consumeRateLimit t s).1) eqn:Ha.
    + apply Mem_allowed_iff in Ha as [_ H2]. rewrite Em in H2.
      assert (Ek' : Mem.monthKey (Mem_spent (Mem.resolve t s)) = Mem.getMonthKey t) by done.
      assert (Em' : Mem.monthCount (Mem_spent (Mem.resolve t s)) = Mem.monthCount s + 1)
        by (unfold Mem_spent; mem_fields; lia).
      specialize (IH (Mem_spent (Mem.resolve t s))). rewrite Ek', Em' in IH.
      specialize (IH Hk'). lia.
    + specialize (IH (Mem.resolve t s)). rewrite Ek, Em in IH.
      specialize (IH Hk'). lia.
Qed.

(** X18_Mem_month_lets_through_at_most_cap on five calls a minute apart with
    three units of the month left. *)
Lemma X18_Mem_month_lets_through_at_most_cap_witness :
  allowedCount
    (consumeEach Mem.consumeRateLimit
       [1793583000500; 1793583070500; 1793583140500; 1793583210500; 1793583280500]
       {| Mem.minuteWindowStart := 1793582000500; Mem.minuteCount := 2;
          Mem.monthKey := "2026-10"; Mem.monthCount := 497 |}).1
  ≤ Z.max 0 (MAX_PER_MONTH - 497).
Proof.
  apply (X18_Mem_month_lets_through_at_most_cap
           [1793583000500; 1793583070500; 1793583140500; 1793583210500; 1793583280500]
           {| Mem.minuteWindowStart := 1793582000500; Mem.minuteCount := 2;
              Mem.monthKey := "2026-10"; Mem.monthCount := 497 |}).
  intros t Ht. repeat (apply elem_of_cons in Ht as [-> | Ht]; [vm_compute; reflexivity |]).
  by apply elem_of_nil in Ht.
Defined.

(** The first day of the month after the one a day of 1970 or later falls
    in comes after that day. *)
Lemma next_month_after (D : Z) :
  0 ≤ D →
  let y := (Js.civil_from_days D).1.1 in
  let m := (Js.civil_from_days D).1.2 in
  1970 ≤ y ∧ 1 ≤ m ≤ 12 ∧ D < Js.days_from_civil (y + m / 12) (m mod 12 + 1) 1.
Proof.
  intros HD. cbv zeta. unfold Js.civil_from_days. cbn [fst snd].
  set (z := D + 719468).
  set (era := z / 146097).
  set (doe := z - era * 146097).
  set (yoe := (doe - doe / 1460 + doe / 36524 - doe / 146096) / 365).
  set (doy := doe - (365 * yoe + yoe / 4 - yoe / 100)).
  set (mp := (5 * doy + 2) / 153).
  assert (Hera : 4 ≤ era) by (subst era z; Z.div_mod_to_equations; lia).
  assert (Hdoe : 0 ≤ doe < 146097).
  { subst doe era. pose proof (Z.div_mod z 146097).
    pose proof (Z.mod_pos_bound z 146097). lia. }
  assert (Hyoe : 0 ≤ yoe ≤ 399) by (subst yoe; Z.div_mod_to_equations; lia).
  assert (Hdoy : 0 ≤ doy ≤ 365) by (subst doy yoe; Z.div_mod_to_equations; lia).
  assert (Hmp : 0 ≤ mp ≤ 11) by (subst mp; Z.div_mod_to_equations; lia).
  assert (HD' : D = era * 146097 + doe - 719468) by (subst doe z; lia).
  assert (Hdoe' : doe = 365 * yoe + yoe / 4 - yoe / 100 + doy) by (subst doy; lia).
  assert (Hmpd : 153 * mp ≤ 5 * doy + 2 < 153 * mp + 153)
    by (subst mp; Z.div_mod_to_equations; lia).
  assert (Hlow : 719468 ≤ era * 146097 + doe) by lia.
  assert (Hnext : doe < 365 * (yoe + 1) + (yoe + 1) / 4 - (yoe + 1) / 100 + (yoe + 1) / 400)
    by (subst yoe; Z.div_mod_to_equations; lia).
  clearbody mp. clearbody doy. clearbody yoe. clearbody doe. clearbody era. clear z.
  subst D doe. clear HD.
  unfold Js.days_from_civil.
  assert (mp = 0 ∨ mp = 1 ∨ mp = 2 ∨ mp = 3 ∨ mp = 4 ∨ mp = 5 ∨ mp = 6 ∨ mp = 7
          ∨ mp = 8 ∨ mp = 9 ∨ mp = 10 ∨ mp = 11) as Hc by lia.
  repeat (destruct Hc as [->|Hc]); try subst mp.
  all: repeat match goal with
       | |- context [if ?c then _ else _] =>
           let v := eval vm_compute in c in change c with v; cbv iota
       end.
  all: split; [Z.div_mod_to_equations; lia | split; [lia |]].
  all: Z.div_mod_to_equations; lia.
Qed.

Lemma month_reset_after now :
  0 ≤ now →
  Js.Date_UTC (Js.getUTCFullYear now) (Js.getUTCMonth now + 1)
  = Js.floor_div (Js.Date_UTC (Js.getUTCFullYear now) (Js.getUTCMonth now + 1)) 1000 * 1000 ∧
  now < Js.Date_UTC (Js.getUTCFullYear now) (Js.getUTCMonth now + 1).
Proof.
  intros Hnow.
  assert (HD : 0 ≤ Js.Day now) by (unfold Js.Day, Js.msPerDay; Z.div_mod_to_equations; lia).
  destruct (next_month_after (Js.Day now) HD) as (Hy & Hm & Hlt).
  unfold Js.getUTCFullYear, Js.getUTCMonth, Js.Date_UTC.
  set (y := (Js.civil_from_days (Js.Day now)).1.1) in *.
  set (m := (Js.civil_from_days (Js.Day now)).1.2) in *.
  replace (m - 1 + 1) with m by lia.
  assert (Hq : (0 <=? y) && (y <=? 99) = false).
  { apply andb_false_iff. right. apply Z.leb_gt. lia. }
  rewrite Hq.
  set (N := Js.days_from_civil (y + m / 12) (m mod 12 + 1) 1) in *.
  unfold Js.floor_div, Js.msPerDay, Js.Day in *. clearbody N. split.
  - replace (N * 86400000) with (N * 86400 * 1000) by lia.
    rewrite Z.div_mul by lia. reflexivity.
  - clear - Hlt. unfold Js.msPerDay in Hlt. Z.div_mod_to_equations. lia.
Qed.

(** The headers of a shared-store call, from its own readings. *)
Lemma Kv_decide_headers (rd : Kv.readings) (st : Kv.store) :
  headers (Kv.decide rd st).1
  = Kv.mkHeaders (Z.max 0 (MAX_PER_MINUTE - Kv.minuteCountAt rd st))
      (Js.floor_div (Kv.windowStartAt rd st + MINUTE_WINDOW_MS) 1000)
      (Z.max 0 (MAX_PER_MONTH - Kv.monthCountAt rd st))
      (Js.floor_div (Js.Date_UTC (Js.getUTCFullYear (Kv.yearAt rd))
                       (Js.getUTCMonth (Kv.monthAt rd) + 1)) 1000).
Proof.
  unfold Kv.decide. fold (Kv.windowStartAt rd st). fold (Kv.minuteCountAt rd st).
  fold (Kv.monthCountAt rd st).
  destruct (MAX_PER_MINUTE <=? Kv.minuteCountAt rd st); [reflexivity |].
  destruct (MAX_PER_MONTH <=? Kv.monthCountAt rd st); reflexivity.
Qed.

(** The writes an allowed shared-store call issues. *)
Lemma Kv_decide_writes (rd : Kv.readings) (st : Kv.store) :
  allowed (Kv.decide rd st).1 = true →
  (Kv.decide rd st).2
  = Some {| Kv.minuteWrite :=
              {| Kv.count := Kv.minuteCountAt rd st + 1;
                 Kv.windowStart :=
                   if MINUTE_WINDOW_MS <=? Kv.nowAt rd - Kv.windowStartAt rd st
                   then Kv.nowAt rd else Kv.windowStartAt rd st |};
            Kv.monthWriteKey := "rate:month:" +:+ Kv.getMonthKey (Kv.keyAt rd);
            Kv.monthWrite := Kv.monthCountAt rd st + 1;
            Kv.monthExat :=
              Js.floor_div (Js.Date_UTC (Js.getUTCFullYear (Kv.yearAt rd))
                              (Js.getUTCMonth (Kv.monthAt rd) + 1)) 1000 |}.
Proof.
  unfold Kv.decide. fold (Kv.windowStartAt rd st). fold (Kv.minuteCountAt rd st).
  fold (Kv.monthCountAt rd st).
  destruct (MAX_PER_MINUTE <=? Kv.minuteCountAt rd st); [discriminate |].
  destruct (MAX_PER_MONTH <=? Kv.monthCountAt rd st); [discriminate |].
  reflexivity.
Qed.

(** X19.  From 1970 on, the month reset the limiters announce for an
    instant [now] lies ahead of it: [x-ratelimit-reset-month] is the decimal
    of a whole number of seconds, midnight UTC, strictly later than [now].
    The in-memory limiter announces it for the clock reading of the call;
    the shared-store limiter announces it whenever the year and the month
    it reads for [Date.UTC] are those of [now], whatever its other readings
    are. *)
Theorem X19_month_reset_lies_ahead (now : Z) :
  0 ≤ now →
  let reset := Mem.nextMonthResetEpochSeconds now in
  now < reset * 1000 ∧ reset mod 86400 = 0 ∧
  (∀ s : Mem.state,
     headers (Mem.consumeRateLimit now s).1 !! "x-ratelimit-reset-month"
       = Some (Js.String_ reset)) ∧
  (∀ (rd : Kv.readings) (st : Kv.store),
     Js.getUTCFullYear (Kv.yearAt rd) = Js.getUTCFullYear now →
     Js.getUTCMonth (Kv.monthAt rd) = Js.getUTCMonth now →
     headers (Kv.consumeRateLimitAt rd st).1 !! "x-ratelimit-reset-month"
       = Some (Js.String_ reset)).
Proof.
  intros Hnow reset.
  destruct (month_reset_after now Hnow) as [Hex Hlt].
  assert (Hmid : reset mod 86400 = 0).
  { subst reset. unfold Mem.nextMonthResetEpochSeconds, Js.Date_UTC, Js.msPerDay, Js.floor_div.
    set (N := Js.days_from_civil _ _ _). clearbody N.
    replace (N * 86400000) with (N * 86400 * 1000) by lia.
    rewrite Z.div_mul by lia. apply Z.mod_mul. lia. }
  split; [subst reset; unfold Mem.nextMonthResetEpochSeconds; lia |].
  split; [exact Hmid |]. clear Hmid Hex Hlt. subst reset. split.
  - intros s. rewrite Mem_consume_headers, buildHeaders_mkHeaders.
    apply mkHeaders_reset_month.
  - intros rd st Hy Hm. unfold Kv.consumeRateLimitAt. cbn [fst].
    rewrite Kv_decide_headers, Hy, Hm.
    unfold Mem.nextMonthResetEpochSeconds. apply mkHeaders_reset_month.
Qed.

(** X19_month_reset_lies_ahead on 2 November 2026: the reset is midnight of
    1 December 2026, for the in-memory limiter and for a shared-store call
    whose readings spread over 400 ms. *)
Lemma X19_month_reset_lies_ahead_witness :
  1793583000500 < Mem.nextMonthResetEpochSeconds 1793583000500 * 1000 ∧
  Mem.nextMonthResetEpochSeconds 1793583000500 = 1796083200 ∧
  headers (Kv.consumeRateLimitAt
             (Kv.mkReadings 1793583000100 1793583000101 1793583000200 1793583000210
                1793583000400 1793583000401 1793583000500) Kv.empty).1
    !! "x-ratelimit-reset-month"
  = Some (Js.String_ (Mem.nextMonthResetEpochSeconds 1793583000500)).
Proof.
  assert (H0 : 0 ≤ 1793583000500) by discriminate.
  pose proof (X19_month_reset_lies_ahead 1793583000500 H0) as (Hlt & _ & _ & Hkv).
  split; [exact Hlt |]. split; [vm_compute; reflexivity |].
  apply Hkv; vm_compute; reflexivity.
Defined.

(** A shared-store call that reads the year in the last millisecond of 2026
    and the month in the first of 2027 pairs 2026 with January: the reset it
    announces, and the [exat] it writes the month record with, is
    1 February 2026, and the record is not found afterwards. *)
Example Kv_new_year_straddle :
  let rd := Kv.mkReadings 1798761599000 1798761599000 1798761599100 1798761599100
              1798761599999 1798761600000 1798761600050 in
  let r := Kv.consumeRateLimitAt rd Kv.empty in
  allowed r.1 = true ∧
  headers r.1 !! "x-ratelimit-reset-month" = Some "1769904000" ∧
  Kv.get_month 1798761600100 "rate:month:2026-11" r.2 = None.
Proof. vm_compute. repeat split; reflexivity. Qed.

(** Two calls that both read the store before either writes are both
    allowed and leave one unit spent, not two. *)
Example Kv_overlapping_calls_lose_a_unit :
  let out := Kv.consumeOverlapping (Kv.allAt 1793583000500) (Kv.allAt 1793583000600)
               Kv.empty in
  allowed out.1.1 = true ∧ allowed out.1.2 = true ∧
  Kv.currentMinuteCount 1793583000700 out.2 = 1 ∧
  Kv.currentMonthCount 1793583000700 out.2 = 1.
Proof. vm_compute. repeat split; reflexivity. Qed.

(** X20.  What an allowed shared-store call writes, on whatever store its
    writes land, is what a later read sees, as long as the records live.
    The minute record holds the count the call read plus one and a window
    that is open at the call's [Date.now()]; a read finds it if the store
    serves the read less than 60 s after it served the write.  The month
    record, under the key of the call's [getMonthKey] reading, holds the
    month count the call read plus one; from 1970 on a read finds it if it
    falls in the year and month the call read for [Date.UTC]. *)
Theorem X20_Kv_spent_unit_is_read_back (rd : Kv.readings) (st st' : Kv.store) (t : Z) :
  0 ≤ t →
  allowed (Kv.decide rd st).1 = true →
  let written := Kv.commit rd (Kv.decide rd st).2 st' in
  let ws := if MINUTE_WINDOW_MS <=? Kv.nowAt rd - Kv.windowStartAt rd st
            then Kv.nowAt rd else Kv.windowStartAt rd st in
  (t < Kv.setAt rd + 60 * 1000 →
   Kv.get_minute t written
   = Some {| Kv.count := Kv.minuteCountAt rd st + 1; Kv.windowStart := ws |}) ∧
  Kv.nowAt rd - ws < MINUTE_WINDOW_MS ∧
  (Js.getUTCFullYear (Kv.yearAt rd) = Js.getUTCFullYear t →
   Js.getUTCMonth (Kv.monthAt rd) = Js.getUTCMonth t →
   Kv.get_month t ("rate:month:" +:+ Kv.getMonthKey (Kv.keyAt rd)) written
   = Some (Kv.monthCountAt rd st + 1)).
Proof.
  intros Ht Ha written ws. subst written. rewrite (Kv_decide_writes rd st Ha).
  unfold Kv.commit.
  cbn [Kv.minuteWrite Kv.monthWriteKey Kv.monthWrite Kv.monthExat]. fold ws.
  split; [| split].
  - intros Hlive. unfold Kv.get_minute, Kv.set_month, Kv.set_minute.
    cbn [Kv.minuteRecord mbind option_bind]. unfold Kv.live. cbn [fst snd].
    apply Z.leb_gt in Hlive. by rewrite Hlive.
  - subst ws.
    destruct (Z.leb_spec MINUTE_WINDOW_MS (Kv.nowAt rd - Kv.windowStartAt rd st));
      unfold MINUTE_WINDOW_MS in *; lia.
  - intros Hy Hm. destruct (month_reset_after t Ht) as [Hex Hlt].
    unfold Kv.get_month, Kv.set_month. cbn [Kv.monthRecords].
    rewrite lookup_insert_eq. cbn [mbind option_bind].
    unfold Kv.live. cbn [fst snd]. rewrite Hy, Hm, <- Hex.
    apply Z.leb_gt in Hlt. by rewrite Hlt.
Qed.

(** X20_Kv_spent_unit_is_read_back on the first call against an empty
    store, its writes landing on the store another call has written to in
    between, read back 30 s later. *)
Lemma X20_Kv_spent_unit_is_read_back_witness :
  let rd := Kv.mkReadings 1793583000100 1793583000101 1793583000200 1793583000210
              1793583000400 1793583000401 1793583000500 in
  let st' := (Kv.consumeRateLimit 1793583000300 Kv.empty).2 in
  let written := Kv.commit rd (Kv.decide rd Kv.empty).2 st' in
  Kv.get_minute 1793583030000 written
  = Some {| Kv.count := 0 + 1; Kv.windowStart := 1793583000100 |} ∧
  Kv.get_month 1793583030000 "rate:month:2026-10" written = Some (0 + 1).
Proof.
  intros rd st' written.
  assert (Ht : 0 ≤ 1793583030000) by discriminate.
  assert (Ha : allowed (Kv.decide rd Kv.empty).1 = true) by (vm_compute; reflexivity).
  destruct (X20_Kv_spent_unit_is_read_back rd Kv.empty st' 1793583030000 Ht Ha)
    as (Hmin & _ & Hmon).
  split.
  - apply Hmin. reflexivity.
  - apply Hmon; vm_compute; reflexivity.
Defined.

(** ** Snapshots against the calls they precede *)

(** X21.  At one clock reading the in-memory snapshot and [consumeRateLimit]
    tell the same story: if the call is denied its headers are exactly the
    snapshot's; if it is allowed, the snapshot reports one more remaining
    for the minute and for the month than the call returns. *)
Theorem X21_Mem_snapshot_against_consume (now : Z) (s : Mem.state) :
  let snap := (Mem.rateLimitSnapshotHeaders now s).1 in
  let r := (Mem.consumeRateLimit now s).1 in
  match r with
  | Denied h _ _ => h = snap
  | Allowed _ mr mo =>
      snap !! "x-ratelimit-remaining-minute" = Some (Js.String_ (mr + 1)) ∧
      snap !! "x-ratelimit-remaining-month" = Some (Js.String_ (mo + 1))
  end.
Proof.
  cbv zeta. unfold Mem.rateLimitSnapshotHeaders. cbn [fst].
  change (Mem.ensureMonthWindow now (Mem.ensureMinuteWindow now s))
    with (Mem.resolve now s).
  destruct (Z.lt_ge_cases (Mem.minuteCount (Mem.resolve now s)) MAX_PER_MINUTE) as [H1|H1];
    [destruct (Z.lt_ge_cases (Mem.monthCount (Mem.resolve now s)) MAX_PER_MONTH)
       as [H2|H2] |].
  - rewrite Mem_consume_allowed by done. cbn [fst].
    rewrite buildHeaders_mkHeaders, mkHeaders_remaining_minute, mkHeaders_remaining_month.
    unfold MAX_PER_MINUTE, MAX_PER_MONTH in *. split; do 2 f_equal; lia.
  - by rewrite Mem_consume_month_denied.
  - by rewrite Mem_consume_minute_denied.
Qed.

Lemma Mem_current_spec now s :
  Mem_current now s = true →
  Mem.minuteWindowStart s ≠ 0 ∧
  now - Mem.minuteWindowStart s < MINUTE_WINDOW_MS ∧
  Mem.monthKey s = Mem.getMonthKey now.
Proof.
  unfold Mem_current. intros H.
  apply andb_prop in H as [H Hk]. apply andb_prop in H as [H0 Hw].
  apply negb_true_iff, Z.eqb_neq in H0. apply Z.ltb_lt in Hw.
  apply String.eqb_eq in Hk. done.
Qed.

(** X22.  The snapshot of the lazily loading revision writes nothing and,
    without a client, resolves nothing: it reports the four fallback
    counters as stored.  While no rollover is due (the stored window is open
    and the stored month is the current one) it returns exactly the headers
    of a [consumeRateLimit] at that clock reading; with a client it is the
    shared-store snapshot. *)
Theorem X22_fallback_snapshot (now : Z) (s : KvFallback.state) :
  (∀ kv, KvFallback.kvClient s = Some kv →
         KvFallback.rateLimitSnapshotHeaders now s = Kv.rateLimitSnapshotHeaders now kv) ∧
  (KvFallback.kvClient s = None →
   KvFallback.rateLimitSnapshotHeaders now s !! "x-ratelimit-remaining-minute"
     = Some (Js.String_ (Z.max 0 (MAX_PER_MINUTE - KvFallback.fallbackMinuteCount s))) ∧
   (Mem_current now (fallbackCounters s) = true →
    KvFallback.rateLimitSnapshotHeaders now s
      = headers (KvFallback.consumeRateLimit now s).1)).
Proof.
  split.
  - intros kv Hkv. unfold KvFallback.rateLimitSnapshotHeaders. by rewrite Hkv.
  - intros Hnone. unfold KvFallback.rateLimitSnapshotHeaders, KvFallback.consumeRateLimit.
    rewrite Hnone. split; [apply mkHeaders_remaining_minute |].
    intros Hcur. apply Mem_current_spec in Hcur as (H0 & Hw & Hk).
    pose proof (Mem_resolve_current now (fallbackCounters s) H0 Hw Hk) as Hres.
    pose proof (Fallback_cases now s) as Hf. cbv zeta in Hf. rewrite Hres in Hf.
    rewrite Hf. unfold Mem.minuteResetEpochSeconds, Mem.nextMonthResetEpochSeconds.
    fallback_fields.
    by repeat match goal with |- context [if ?b then _ else _] => destruct b end.
Qed.

(** X22_fallback_snapshot on fallback counters five requests into their
    window, no client. *)
Lemma X22_fallback_snapshot_witness :
  let s := {| KvFallback.kvClient := None;
              KvFallback.fallbackMinuteStart := 1793583000500;
              KvFallback.fallbackMinuteCount := 5;
              KvFallback.fallbackMonthKey := "2026-10";
              KvFallback.fallbackMonthCount := 5 |} in
  KvFallback.rateLimitSnapshotHeaders 1793583030000 s
    = headers (KvFallback.consumeRateLimit 1793583030000 s).1.
Proof.
  intros s.
  apply (proj2 (X22_fallback_snapshot 1793583030000 s) eq_refl).
  vm_compute. reflexivity.
Defined.

(** X23.  A denial of the in-memory limiter is stable: calling again at the
    same clock reading returns the same result and leaves the same state,
    however often. *)
Theorem X23_Mem_denial_is_stable (now : Z) (s : Mem.state) :
  allowed (Mem.consumeRateLimit now s).1 = false →
  Mem.consumeRateLimit now (Mem.consumeRateLimit now s).2 = Mem.consumeRateLimit now s.
Proof.
  intros Hd. rewrite Mem_consume_state, Hd. apply Mem_consume_resolve.
Qed.

(** X23_Mem_denial_is_stable on a full window. *)
Lemma X23_Mem_denial_is_stable_witness :
  let s := {| Mem.minuteWindowStart := 1793583000500; Mem.minuteCount := 20;
              Mem.monthKey := "2026-09"; Mem.monthCount := 20 |} in
  Mem.consumeRateLimit 1793583001000 (Mem.consumeRateLimit 1793583001000 s).2
  = Mem.consumeRateLimit 1793583001000 s.
Proof.
  intros s. apply (X23_Mem_denial_is_stable 1793583001000 s). vm_compute. reflexivity.
Defined.

(** ** The upstream behind the keyed route *)



